(** * Codebase Genius: the static source-analysis engine

    A shallow embedding of [backend/utils/code_analyzer.py]:
    - [CodeParser]: language detection by file extension and [parse_file];
    - [PythonAnalyzer]: the recursive walk of a Tree-sitter syntax tree that
      extracts functions, classes and imports;
    - [CodeContextGraph]: the accumulated graph of entities and its queries.

    Python [str] values are modelled by [string]; list-typed attributes by
    [list]; dictionaries with a fixed key set by records; dictionaries read
    with [.get(key, default)] by records of [option] fields; the [file_map]
    dictionary by a [gmap].  Methods that mutate [self] take the object state
    and return the new one. *)

From Stdlib Require Import Ascii DecimalString.
From stdpp Require Import gmap strings list fin_maps.

Local Open Scope string_scope.
Local Open Scope list_scope.
Set Warnings "-register-all,-clear-no-such-hyp".

(** ** Strings *)

Module Str.

(** [s[a:b]] for non-negative [a] and [b]: out-of-range indices are
    clamped, and the slice is empty when [b <= a]. *)
Definition slice (s : string) (a b : nat) : string :=
  String.substring a (b - a) s.

(** [c not in s] *)
Fixpoint lacks (c : ascii) (s : string) : bool :=
  match s with
  | EmptyString => true
  | String d s' => negb (Ascii.eqb c d) && lacks c s'
  end.

(** [s.rfind(c)], as the index of the last occurrence, if any. *)
Fixpoint rfind (c : ascii) (s : string) : option nat :=
  match s with
  | EmptyString => None
  | String d s' =>
      match rfind c s' with
      | Some i => Some (S i)
      | None => if Ascii.eqb c d then Some 0 else None
      end
  end.

(** [s.lower()] on ASCII text. *)
Definition lower_ascii (c : ascii) : ascii :=
  let n := nat_of_ascii c in
  if (65 <=? n)%nat && (n <=? 90)%nat then ascii_of_nat (n + 32) else c.

Fixpoint lower (s : string) : string :=
  match s with
  | EmptyString => EmptyString
  | String c s' => String (lower_ascii c) (lower s')
  end.

End Str.

(** ** Tree-sitter syntax trees

    A [Node] of the concrete syntax tree, as the analyzer reads it: its
    grammar tag, its byte range in the source text, its start and end
    points (row, column) and its ordered children.  Anonymous tokens
    (keywords, punctuation) are children like the named ones. *)

Inductive Node : Type :=
  mkNode {
    node_type : string;
    start_byte : nat;
    end_byte : nat;
    start_point : nat * nat;
    end_point : nat * nat;
    children : list Node
  }.

(** [code[node.start_byte:node.end_byte]] *)
Definition node_text (code : string) (n : Node) : string :=
  Str.slice code (start_byte n) (end_byte n).

Definition has_type (ty : string) (n : Node) : bool :=
  String.eqb (node_type n) ty.

(** ** Extraction records *)

Record FunctionEntity := {
  func_type : string;
  func_name : string;
  func_params : list string;
  func_line_start : nat;
  func_line_end : nat;
  func_calls : list string
}.

Record MethodRecord := {
  meth_name : string;
  meth_line : nat
}.

Record ClassEntity := {
  cls_type : string;
  cls_name : string;
  cls_methods : list MethodRecord;
  cls_bases : list string;
  cls_line_start : nat;
  cls_line_end : nat
}.

Record ImportRecord := {
  imp_type : string;
  imp_statement : string;
  imp_line : nat
}.

(** The dictionary returned by [PythonAnalyzer.analyze]; [{}] has no key at
    all, and the graph reads every key with a default. *)
Record Analysis := {
  a_functions : option (list FunctionEntity);
  a_classes : option (list ClassEntity);
  a_imports : option (list ImportRecord);
  a_file_path : option string
}.

Definition empty_analysis : Analysis :=
  {| a_functions := None; a_classes := None; a_imports := None;
     a_file_path := None |}.

(** The dictionary returned by [CodeParser.parse_file].  The ['tree'] entry
    is only read through its [root_node], kept here. *)
Record ParsedData := {
  pd_file_path : string;
  pd_language : string;
  pd_code : string;
  pd_root_node : Node
}.

(** ** PythonAnalyzer *)

Record PythonAnalyzer := {
  functions : list FunctionEntity;
  classes : list ClassEntity;
  imports : list ImportRecord
}.

Definition PythonAnalyzer_init : PythonAnalyzer :=
  {| functions := []; classes := []; imports := [] |}.

(** The loops [for child in node.children: if child.type == ...: ...; break]
    read the first child that passes the test. *)
Definition first_child (p : Node -> bool) (n : Node) : option Node :=
  List.find p (children n).

Definition _extract_params (params_node : Node) (code : string) : list string :=
  fold_left
    (fun params child =>
       if has_type "identifier" child then params ++ [node_text code child]
       else params)
    (children params_node) [].

Definition _extract_bases (arg_list_node : Node) (code : string) : list string :=
  fold_left
    (fun bases child =>
       if has_type "identifier" child then bases ++ [node_text code child]
       else bases)
    (children arg_list_node) [].

Definition _extract_methods (class_node : Node) (code : string)
  : list MethodRecord :=
  fold_left
    (fun methods child =>
       if has_type "block" child then
         fold_left
           (fun methods stmt =>
              if has_type "function_definition" stmt then
                let method_name :=
                  match first_child (has_type "identifier") stmt with
                  | Some node => node_text code node
                  | None => ""
                  end in
                methods ++ [ {| meth_name := method_name;
                                meth_line := fst (start_point stmt) + 1 |} ]
              else methods)
           (children child) methods
       else methods)
    (children class_node) [].

(** The inner [traverse] of [_find_function_calls]; [calls] is the list the
    closure appends to. *)
Fixpoint traverse (code : string) (n : Node) (calls : list string)
  : list string :=
  let calls :=
    if has_type "call" n then
      match List.find
              (fun child =>
                 has_type "identifier" child || has_type "attribute" child)
              (children n) with
      | Some child => calls ++ [node_text code child]
      | None => calls
      end
    else calls in
  fold_left (fun calls child => traverse code child calls) (children n) calls.

Definition _find_function_calls (node : Node) (code : string) : list string :=
  traverse code node [].

Definition _extract_function (node : Node) (code : string)
    (self : PythonAnalyzer) : PythonAnalyzer :=
  let name :=
    match first_child (has_type "identifier") node with
    | Some child => node_text code child
    | None => ""
    end in
  let params :=
    match first_child (has_type "parameters") node with
    | Some child => _extract_params child code
    | None => []
    end in
  let func_info :=
    {| func_type := "function";
       func_name := name;
       func_params := params;
       func_line_start := fst (start_point node) + 1;
       func_line_end := fst (end_point node) + 1;
       func_calls := _find_function_calls node code |} in
  {| functions := functions self ++ [func_info];
     classes := classes self;
     imports := imports self |}.

Definition _extract_class (node : Node) (code : string)
    (self : PythonAnalyzer) : PythonAnalyzer :=
  let name :=
    match first_child (has_type "identifier") node with
    | Some child => node_text code child
    | None => ""
    end in
  let bases :=
    match first_child (has_type "argument_list") node with
    | Some child => _extract_bases child code
    | None => []
    end in
  let class_info :=
    {| cls_type := "class";
       cls_name := name;
       cls_methods := _extract_methods node code;
       cls_bases := bases;
       cls_line_start := fst (start_point node) + 1;
       cls_line_end := fst (end_point node) + 1 |} in
  {| functions := functions self;
     classes := classes self ++ [class_info];
     imports := imports self |}.

Definition _extract_import (node : Node) (code : string)
    (self : PythonAnalyzer) : PythonAnalyzer :=
  {| functions := functions self;
     classes := classes self;
     imports := imports self ++
                [ {| imp_type := "import";
                     imp_statement := node_text code node;
                     imp_line := fst (start_point node) + 1 |} ] |}.

Fixpoint _traverse_node (node : Node) (code : string) (self : PythonAnalyzer)
  : PythonAnalyzer :=
  let self :=
    if has_type "function_definition" node then _extract_function node code self
    else if has_type "class_definition" node then _extract_class node code self
    else if has_type "import_statement" node
            || has_type "import_from_statement" node
         then _extract_import node code self
    else self in
  fold_left (fun self child => _traverse_node child code self)
            (children node) self.

(** [analyze] resets the three lists, walks the tree and returns the lists
    together with the file path; anything but parsed Python gives [{}] and
    leaves the analyzer as it was. *)
Definition analyze (self : PythonAnalyzer) (parsed_data : option ParsedData)
  : Analysis * PythonAnalyzer :=
  match parsed_data with
  | None => (empty_analysis, self)
  | Some pd =>
      if negb (String.eqb (pd_language pd) "python") then (empty_analysis, self)
      else
        let self := _traverse_node (pd_root_node pd) (pd_code pd)
                                   PythonAnalyzer_init in
        ({| a_functions := Some (functions self);
            a_classes := Some (classes self);
            a_imports := Some (imports self);
            a_file_path := Some (pd_file_path pd) |}, self)
  end.

(** ** CodeParser *)

(** What a call into the Python runtime or into Tree-sitter gives back: a
    value, or a raised exception. *)
Inductive outcome (A : Type) : Type :=
| Return (a : A)
| Raise (msg : string).
Arguments Return {A} a.
Arguments Raise {A} msg.

(** The library calls [parse_file] relies on: [Path(p).suffix],
    [str.lower], and opening and reading a file as UTF-8 text. *)
Record Runtime := {
  path_suffix : string -> string;
  str_lower : string -> string;
  read_text : string -> outcome string
}.

(** An initialized Tree-sitter parser: [parser.parse(bytes(code, 'utf8'))],
    read through [tree.root_node]. *)
Definition Parser : Type := string -> outcome Node.

(** [self.parsers] maps a language to its parser.  ([self.languages] is
    written by [__init__] and never read again.) *)
Record CodeParser := {
  parsers : gmap string Parser
}.

(** [__init__]: each grammar is set up in its own [try] block; a grammar
    whose setup raises is reported and left out of [self.parsers]. *)
Definition CodeParser_init (python_setup javascript_setup : outcome Parser)
  : CodeParser :=
  let parsers : gmap string Parser := ∅ in
  let parsers :=
    match python_setup with
    | Return p => <["python" := p]> parsers
    | Raise _ => parsers
    end in
  let parsers :=
    match javascript_setup with
    | Return p => <["javascript" := p]> parsers
    | Raise _ => parsers
    end in
  {| parsers := parsers |}.

Definition ext_map : gmap string string :=
  list_to_map
    [ (".py", "python");
      (".js", "javascript");
      (".ts", "javascript");
      (".jsx", "javascript");
      (".jac", "python") ].

Definition detect_language (rt : Runtime) (file_path : string) : option string :=
  let ext := str_lower rt (path_suffix rt file_path) in
  ext_map !! ext.

(** [parse_file]: [None] when no language is detected or its parser is
    missing; any exception raised while reading or parsing is caught and
    turned into [None]. *)
Definition parse_file (rt : Runtime) (self : CodeParser) (file_path : string)
  : outcome (option ParsedData) :=
  match detect_language rt file_path with
  | None => Return None
  | Some language =>
      if String.eqb language "" then Return None
      else
        match parsers self !! language with
        | None => Return None
        | Some parser =>
            match read_text rt file_path with
            | Raise _ => Return None
            | Return code =>
                match parser code with
                | Raise _ => Return None
                | Return root_node =>
                    Return (Some {| pd_file_path := file_path;
                                    pd_language := language;
                                    pd_code := code;
                                    pd_root_node := root_node |})
                end
            end
        end
  end.

(** ** CodeContextGraph *)

(** A node dictionary.  Function nodes carry ['params'] and ['calls'], class
    nodes ['methods'] and ['bases']; a missing key is [None]. *)
Record GraphNode := {
  gn_id : string;
  gn_type : string;
  gn_name : string;
  gn_file : string;
  gn_line_start : nat;
  gn_line_end : nat;
  gn_params : option (list string);
  gn_calls : option (list string);
  gn_methods : option (list MethodRecord);
  gn_bases : option (list string)
}.

Record GraphEdge := {
  ge_from : string;
  ge_to : string;
  ge_type : string;
  ge_file : string
}.

Record FileEntry := {
  fe_functions : list string;
  fe_classes : list string
}.

Record CodeContextGraph := {
  nodes : list GraphNode;
  edges : list GraphEdge;
  file_map : gmap string FileEntry
}.

Definition CodeContextGraph_init : CodeContextGraph :=
  {| nodes := []; edges := []; file_map := ∅ |}.

Definition append_node (self : CodeContextGraph) (node : GraphNode)
  : CodeContextGraph :=
  {| nodes := nodes self ++ [node];
     edges := edges self;
     file_map := file_map self |}.

Definition append_edge (self : CodeContextGraph) (edge : GraphEdge)
  : CodeContextGraph :=
  {| nodes := nodes self;
     edges := edges self ++ [edge];
     file_map := file_map self |}.

(** [f"{file_path}::{name}"] *)
Definition make_node_id (file_path name : string) : string :=
  file_path +:+ "::" +:+ name.

(** The four dictionaries [add_file_analysis] builds. *)
Definition function_node (file_path : string) (func : FunctionEntity)
  : GraphNode :=
  {| gn_id := make_node_id file_path (func_name func);
     gn_type := "function";
     gn_name := func_name func;
     gn_file := file_path;
     gn_line_start := func_line_start func;
     gn_line_end := func_line_end func;
     gn_params := Some (func_params func);
     gn_calls := Some (func_calls func);
     gn_methods := None;
     gn_bases := None |}.

Definition class_node (file_path : string) (cls : ClassEntity) : GraphNode :=
  {| gn_id := make_node_id file_path (cls_name cls);
     gn_type := "class";
     gn_name := cls_name cls;
     gn_file := file_path;
     gn_line_start := cls_line_start cls;
     gn_line_end := cls_line_end cls;
     gn_params := None;
     gn_calls := None;
     gn_methods := Some (cls_methods cls);
     gn_bases := Some (cls_bases cls) |}.

Definition calls_edge (file_path node_id call : string) : GraphEdge :=
  {| ge_from := node_id; ge_to := call;
     ge_type := "calls"; ge_file := file_path |}.

Definition inherits_edge (file_path node_id base : string) : GraphEdge :=
  {| ge_from := node_id; ge_to := base;
     ge_type := "inherits"; ge_file := file_path |}.

Definition add_file_analysis (self : CodeContextGraph) (analysis : Analysis)
  : CodeContextGraph :=
  let file_path := default "unknown" (a_file_path analysis) in
  let self :=
    fold_left
      (fun self func =>
         let node_id := make_node_id file_path (func_name func) in
         let self := append_node self (function_node file_path func) in
         fold_left
           (fun self call =>
              append_edge self (calls_edge file_path node_id call))
           (func_calls func) self)
      (default [] (a_functions analysis)) self in
  let self :=
    fold_left
      (fun self cls =>
         let node_id := make_node_id file_path (cls_name cls) in
         let self := append_node self (class_node file_path cls) in
         fold_left
           (fun self base =>
              append_edge self (inherits_edge file_path node_id base))
           (cls_bases cls) self)
      (default [] (a_classes analysis)) self in
  {| nodes := nodes self;
     edges := edges self;
     file_map :=
       <[ file_path :=
            {| fe_functions := map func_name (default [] (a_functions analysis));
               fe_classes := map cls_name (default [] (a_classes analysis)) |} ]>
         (file_map self) |}.

Record Statistics := {
  total_nodes : nat;
  total_edges : nat;
  stat_functions : nat;
  stat_classes : nat;
  files_analyzed : nat
}.

Definition get_statistics (self : CodeContextGraph) : Statistics :=
  {| total_nodes := length (nodes self);
     total_edges := length (edges self);
     stat_functions :=
       length (List.filter (fun n => String.eqb (gn_type n) "function")
                           (nodes self));
     stat_classes :=
       length (List.filter (fun n => String.eqb (gn_type n) "class")
                           (nodes self));
     files_analyzed := size (file_map self) |}.

Definition find_callers (self : CodeContextGraph) (function_name : string)
  : list string :=
  fold_left
    (fun callers edge =>
       if String.eqb (ge_type edge) "calls"
          && String.eqb (ge_to edge) function_name
       then callers ++ [ge_from edge]
       else callers)
    (edges self) [].

(** The loop of [find_callees]: it stops at the first node whose name is
    [function_name] and reads [node.get('calls', [])] there. *)
Fixpoint find_callees_loop (function_name : string) (l : list GraphNode)
    (callees : list string) : list string :=
  match l with
  | [] => callees
  | node :: rest =>
      if String.eqb (gn_name node) function_name
      then default [] (gn_calls node)
      else find_callees_loop function_name rest callees
  end.

Definition find_callees (self : CodeContextGraph) (function_name : string)
  : list string :=
  find_callees_loop function_name (nodes self) [].

(** The graph after ingesting a sequence of analyses, starting empty. *)
Definition build (analyses : list Analysis) : CodeContextGraph :=
  fold_left add_file_analysis analyses CodeContextGraph_init.

(** ** Syntax trees of the scenarios

    The trees Tree-sitter's Python grammar gives for two small files, with
    the byte ranges and points of every node. *)

Module Scenario.

Definition nl : string := String (ascii_of_nat 10) "".

(** A token: a node without children, on one row. *)
Definition tok (ty : string) (sb eb row sc ec : nat) : Node :=
  mkNode ty sb eb (row, sc) (row, ec) [].

(** [name()] on one row: a call statement without arguments. *)
Definition call_stmt (sb row sc : nat) (len : nat) : Node :=
  mkNode "expression_statement" sb (sb + len + 2) (row, sc) (row, sc + len + 2)
    [ mkNode "call" sb (sb + len + 2) (row, sc) (row, sc + len + 2)
        [ tok "identifier" sb (sb + len) row sc (sc + len);
          mkNode "argument_list" (sb + len) (sb + len + 2)
            (row, sc + len) (row, sc + len + 2)
            [ tok "(" (sb + len) (sb + len + 1) row (sc + len) (sc + len + 1);
              tok ")" (sb + len + 1) (sb + len + 2) row
                  (sc + len + 1) (sc + len + 2) ] ] ].

(** <<
    def outer():
        def foo(a, b):
            bar(); baz()
        foo()
    >> *)
Definition nested_code : string :=
  "def outer():" +:+ nl +:+
  "    def foo(a, b):" +:+ nl +:+
  "        bar(); baz()" +:+ nl +:+
  "    foo()" +:+ nl.

Definition foo_def : Node :=
  mkNode "function_definition" 17 52 (1, 4) (2, 20)
    [ tok "def" 17 20 1 4 7;
      tok "identifier" 21 24 1 8 11;
      mkNode "parameters" 24 30 (1, 11) (1, 17)
        [ tok "(" 24 25 1 11 12;
          tok "identifier" 25 26 1 12 13;
          tok "," 26 27 1 13 14;
          tok "identifier" 28 29 1 15 16;
          tok ")" 29 30 1 16 17 ];
      tok ":" 30 31 1 17 18;
      mkNode "block" 40 52 (2, 8) (2, 20)
        [ call_stmt 40 2 8 3;
          tok ";" 45 46 2 13 14;
          call_stmt 47 2 15 3 ] ].

Definition outer_def : Node :=
  mkNode "function_definition" 0 62 (0, 0) (3, 9)
    [ tok "def" 0 3 0 0 3;
      tok "identifier" 4 9 0 4 9;
      mkNode "parameters" 9 11 (0, 9) (0, 11)
        [ tok "(" 9 10 0 9 10; tok ")" 10 11 0 10 11 ];
      tok ":" 11 12 0 11 12;
      mkNode "block" 17 62 (1, 4) (3, 9)
        [ foo_def; call_stmt 57 3 4 3 ] ].

Definition nested_module : Node :=
  mkNode "module" 0 63 (0, 0) (4, 0) [ outer_def ].

Definition nested_parsed : ParsedData :=
  {| pd_file_path := "nested.py"; pd_language := "python";
     pd_code := nested_code; pd_root_node := nested_module |}.

(** <<
    class Dog(Animal):
        def bark(self): ...
    >> *)
Definition dog_code : string :=
  "class Dog(Animal):" +:+ nl +:+
  "    def bark(self): ..." +:+ nl.

Definition bark_def : Node :=
  mkNode "function_definition" 23 42 (1, 4) (1, 23)
    [ tok "def" 23 26 1 4 7;
      tok "identifier" 27 31 1 8 12;
      mkNode "parameters" 31 37 (1, 12) (1, 18)
        [ tok "(" 31 32 1 12 13;
          tok "identifier" 32 36 1 13 17;
          tok ")" 36 37 1 17 18 ];
      tok ":" 37 38 1 18 19;
      mkNode "block" 39 42 (1, 20) (1, 23)
        [ mkNode "expression_statement" 39 42 (1, 20) (1, 23)
            [ tok "ellipsis" 39 42 1 20 23 ] ] ].

Definition dog_def : Node :=
  mkNode "class_definition" 0 42 (0, 0) (1, 23)
    [ tok "class" 0 5 0 0 5;
      tok "identifier" 6 9 0 6 9;
      mkNode "argument_list" 9 17 (0, 9) (0, 17)
        [ tok "(" 9 10 0 9 10;
          tok "identifier" 10 16 0 10 16;
          tok ")" 16 17 0 16 17 ];
      tok ":" 17 18 0 17 18;
      mkNode "block" 23 42 (1, 4) (1, 23) [ bark_def ] ].

Definition dog_module : Node :=
  mkNode "module" 0 43 (0, 0) (2, 0) [ dog_def ].

Definition dog_parsed : ParsedData :=
  {| pd_file_path := "dog.py"; pd_language := "python";
     pd_code := dog_code; pd_root_node := dog_module |}.

(** <<
    class Dog(Animal):
        if True:
            def bark(self): ...
    >>
    The same method, one level down: the class body holds an [if]
    statement whose block holds the definition. *)
Definition guarded_dog_code : string :=
  "class Dog(Animal):" +:+ nl +:+
  "    if True:" +:+ nl +:+
  "        def bark(self): ..." +:+ nl.

Definition guarded_bark_def : Node :=
  mkNode "function_definition" 40 59 (2, 8) (2, 27)
    [ tok "def" 40 43 2 8 11;
      tok "identifier" 44 48 2 12 16;
      mkNode "parameters" 48 54 (2, 16) (2, 22)
        [ tok "(" 48 49 2 16 17;
          tok "identifier" 49 53 2 17 21;
          tok ")" 53 54 2 21 22 ];
      tok ":" 54 55 2 22 23;
      mkNode "block" 56 59 (2, 24) (2, 27)
        [ mkNode "expression_statement" 56 59 (2, 24) (2, 27)
            [ tok "ellipsis" 56 59 2 24 27 ] ] ].

Definition guarded_dog_def : Node :=
  mkNode "class_definition" 0 59 (0, 0) (2, 27)
    [ tok "class" 0 5 0 0 5;
      tok "identifier" 6 9 0 6 9;
      mkNode "argument_list" 9 17 (0, 9) (0, 17)
        [ tok "(" 9 10 0 9 10;
          tok "identifier" 10 16 0 10 16;
          tok ")" 16 17 0 16 17 ];
      tok ":" 17 18 0 17 18;
      mkNode "block" 23 59 (1, 4) (2, 27)
        [ mkNode "if_statement" 23 59 (1, 4) (2, 27)
            [ tok "if" 23 25 1 4 6;
              tok "true" 26 30 1 7 11;
              tok ":" 30 31 1 11 12;
              mkNode "block" 40 59 (2, 8) (2, 27) [ guarded_bark_def ] ] ] ].

Definition guarded_dog_module : Node :=
  mkNode "module" 0 60 (0, 0) (3, 0) [ guarded_dog_def ].

Definition guarded_dog_parsed : ParsedData :=
  {| pd_file_path := "guarded_dog.py"; pd_language := "python";
     pd_code := guarded_dog_code; pd_root_node := guarded_dog_module |}.

(** The parsed data of the first class file, as read from [src/dog.py]. *)
Definition dog_parsed_at : ParsedData :=
  {| pd_file_path := "src/dog.py"; pd_language := "python";
     pd_code := dog_code; pd_root_node := dog_module |}.

End Scenario.

(** The two loops of [add_file_analysis], named. *)
Definition functions_loop (file_path : string) (fs : list FunctionEntity)
    (g : CodeContextGraph) : CodeContextGraph :=
  fold_left
    (fun self func =>
       let node_id := make_node_id file_path (func_name func) in
       let self := append_node self (function_node file_path func) in
       fold_left
         (fun self call =>
            append_edge self (calls_edge file_path node_id call))
         (func_calls func) self)
    fs g.

Definition classes_loop (file_path : string) (cs : list ClassEntity)
    (g : CodeContextGraph) : CodeContextGraph :=
  fold_left
    (fun self cls =>
       let node_id := make_node_id file_path (cls_name cls) in
       let self := append_node self (class_node file_path cls) in
       fold_left
         (fun self base =>
            append_edge self (inherits_edge file_path node_id base))
         (cls_bases cls) self)
    cs g.

(** ** What one ingestion adds

    The nodes, edges and composite keys of an analysis, in the order
    [add_file_analysis] appends them. *)

Definition analysis_path (a : Analysis) : string :=
  default "unknown" (a_file_path a).

Definition analysis_nodes (a : Analysis) : list GraphNode :=
  map (function_node (analysis_path a)) (default [] (a_functions a))
  ++ map (class_node (analysis_path a)) (default [] (a_classes a)).

Definition function_edges (file_path : string) (func : FunctionEntity)
  : list GraphEdge :=
  map (calls_edge file_path (make_node_id file_path (func_name func)))
      (func_calls func).

Definition class_edges (file_path : string) (cls : ClassEntity)
  : list GraphEdge :=
  map (inherits_edge file_path (make_node_id file_path (cls_name cls)))
      (cls_bases cls).

Definition analysis_edges (a : Analysis) : list GraphEdge :=
  flat_map (function_edges (analysis_path a)) (default [] (a_functions a))
  ++ flat_map (class_edges (analysis_path a)) (default [] (a_classes a)).

(** The (file path, entity name) pairs of an analysis. *)
Definition analysis_keys (a : Analysis) : list (string * string) :=
  map (fun func => (analysis_path a, func_name func)) (default [] (a_functions a))
  ++ map (fun cls => (analysis_path a, cls_name cls)) (default [] (a_classes a)).

Definition ingested_keys (analyses : list Analysis) : list (string * string) :=
  flat_map analysis_keys analyses.

(** The id a key gives. *)
Definition key_id (k : string * string) : string := make_node_id (fst k) (snd k).

(** [':' not in name] *)
Definition colon_free (name : string) : bool := Str.lacks ":" name.

(** ** What the extractor records at one node *)

(** The name [traverse] records at [n] itself: the text of the first
    identifier or attribute child of a call node. *)
Definition call_name (code : string) (n : Node) : list string :=
  if has_type "call" n then
    match List.find
            (fun child =>
               has_type "identifier" child || has_type "attribute" child)
            (children n) with
    | Some child => [node_text code child]
    | None => []
    end
  else [].

(** The method record [_extract_methods] makes of a function definition. *)
Definition method_record (code : string) (stmt : Node) : MethodRecord :=
  {| meth_name :=
       match first_child (has_type "identifier") stmt with
       | Some node => node_text code node
       | None => ""
       end;
     meth_line := fst (start_point stmt) + 1 |}.

(** Name and call list of a function record; name, bases and method names
    of a class record. *)
Definition function_summary (f : FunctionEntity) : string * list string :=
  (func_name f, func_calls f).

Definition class_summary (c : ClassEntity)
  : string * list string * list string :=
  (cls_name c, cls_bases c, map meth_name (cls_methods c)).

(** [analyze] on a fresh analyzer, read through its two entity lists. *)
Definition extracted_functions (pd : ParsedData) : list FunctionEntity :=
  default [] (a_functions (fst (analyze PythonAnalyzer_init (Some pd)))).

Definition extracted_classes (pd : ParsedData) : list ClassEntity :=
  default [] (a_classes (fst (analyze PythonAnalyzer_init (Some pd)))).

(** ** A runtime for the examples

    Paths are POSIX paths that name a file ([pathlib]'s [suffix] of the last
    component: from its last dot, unless that dot is its first or last
    character); the file system holds two files. *)

Module Example.

Definition path_name (p : string) : string :=
  match Str.rfind "/" p with
  | Some i => String.substring (S i) (String.length p - S i) p
  | None => p
  end.

Definition suffix (p : string) : string :=
  let name := path_name p in
  match Str.rfind "." name with
  | Some i =>
      if (0 <? i)%nat && (i <? String.length name - 1)%nat
      then String.substring i (String.length name - i) name
      else ""
  | None => ""
  end.

Definition runtime : Runtime :=
  {| path_suffix := suffix;
     str_lower := Str.lower;
     read_text := fun p =>
       if String.eqb p "src/dog.py" then Return Scenario.dog_code
       else if String.eqb p "README.md" then Return "# readme"
       else Raise "FileNotFoundError" |}.

(** A Python parser that knows one text. *)
Definition python_parser : Parser := fun code =>
  if String.eqb code Scenario.dog_code then Return Scenario.dog_module
  else Raise "unexpected text".

(** A [CodeParser] whose JavaScript grammar failed to load. *)
Definition python_only : CodeParser :=
  CodeParser_init (Return python_parser) (Raise "no grammar").

Definition function_named (name : string) (calls : list string)
  : FunctionEntity :=
  {| func_type := "function"; func_name := name; func_params := [];
     func_line_start := 1; func_line_end := 2; func_calls := calls |}.

Definition class_named (name : string) (bases : list string) : ClassEntity :=
  {| cls_type := "class"; cls_name := name; cls_methods := [];
     cls_bases := bases; cls_line_start := 1; cls_line_end := 2 |}.

Definition analysis_of (file_path : string) (fs : list FunctionEntity)
    (cs : list ClassEntity) : Analysis :=
  {| a_functions := Some fs; a_classes := Some cs; a_imports := Some [];
     a_file_path := Some file_path |}.

(** Two files that both define a function [run] and a class [Dog]. *)
Definition main_a : FunctionEntity := function_named "main" ["run"].
Definition run_a : FunctionEntity := function_named "run" ["g"].
Definition run_b : FunctionEntity := function_named "run" ["h"; "k"].

Definition file_a : Analysis :=
  analysis_of "a.py" [main_a; run_a] [class_named "Dog" ["Animal"]].

Definition file_b : Analysis :=
  analysis_of "b.py" [run_b] [class_named "Dog" []].

(** A file that defines [run] twice. *)
Definition file_twice : Analysis :=
  analysis_of "c.py" [run_a; run_b] [].

(** A class [Shape] in one file, a function [Shape] in the next. *)
Definition shape_class : Analysis :=
  analysis_of "shapes.py" [] [class_named "Shape" ["Base"]].

Definition shape_function : Analysis :=
  analysis_of "factory.py" [function_named "Shape" ["draw"]] [].

(** Two entities with different paths and names whose ids coincide: the
    name of the first holds the separator. *)
Definition colon_name_file : Analysis :=
  analysis_of "a" [function_named "b::c" []] [].

Definition colon_path_file : Analysis :=
  analysis_of "a::b" [function_named "c" []] [].

(** A later analysis of the path of [file_a], with other contents. *)
Definition file_a_again : Analysis :=
  analysis_of "a.py" [function_named "start" []] [].

(** Parsed JavaScript: [analyze] has nothing to say about it. *)
Definition script_parsed : ParsedData :=
  {| pd_file_path := "web/app.js"; pd_language := "javascript";
     pd_code := "f()";
     pd_root_node := mkNode "program" 0 3 (0, 0) (0, 3) [] |}.

(** A function-definition node that has no identifier child. *)
Definition unnamed_def : Node :=
  mkNode "function_definition" 0 12 (0, 0) (0, 12)
    [ Scenario.tok "def" 0 3 0 0 3;
      mkNode "parameters" 4 6 (0, 4) (0, 6)
        [ Scenario.tok "(" 4 5 0 4 5; Scenario.tok ")" 5 6 0 5 6 ];
      Scenario.tok ":" 6 7 0 6 7;
      mkNode "block" 8 12 (0, 8) (0, 12)
        [ Scenario.tok "pass_statement" 8 12 0 8 12 ] ].

End Example.

(** ** Counts and index entries of an analysis *)

(** The edges one ingestion appends: one per recorded call, one per base. *)
Definition analysis_edge_count (a : Analysis) : nat :=
  list_sum (map (fun f => length (func_calls f)) (default [] (a_functions a)))
  + list_sum (map (fun c => length (cls_bases c)) (default [] (a_classes a))).

Definition analysis_node_count (a : Analysis) : nat :=
  length (default [] (a_functions a)) + length (default [] (a_classes a)).

(** The [file_map] entry one ingestion writes. *)
Definition analysis_entry (a : Analysis) : FileEntry :=
  {| fe_functions := map func_name (default [] (a_functions a));
     fe_classes := map cls_name (default [] (a_classes a)) |}.

(** ** Nodes of a syntax tree *)

(** The number of nodes of a given type in a tree. *)
Fixpoint count_type (ty : string) (n : Node) : nat :=
  (if has_type ty n then 1 else 0) + list_sum (map (count_type ty) (children n)).

(** [d] is [n] or lies below it. *)
Inductive descendant : Node -> Node -> Prop :=
| descendant_self n : descendant n n
| descendant_child n c d :
    In c (children n) -> descendant c d -> descendant n d.

(** The record [_extract_function] appends for a node, and the one
    [_extract_class] appends. *)
Definition function_record (code : string) (node : Node) : FunctionEntity :=
  {| func_type := "function";
     func_name :=
       match first_child (has_type "identifier") node with
       | Some child => node_text code child
       | None => ""
       end;
     func_params :=
       match first_child (has_type "parameters") node with
       | Some child => _extract_params child code
       | None => []
       end;
     func_line_start := fst (start_point node) + 1;
     func_line_end := fst (end_point node) + 1;
     func_calls := _find_function_calls node code |}.

Definition class_record (code : string) (node : Node) : ClassEntity :=
  {| cls_type := "class";
     cls_name :=
       match first_child (has_type "identifier") node with
       | Some child => node_text code child
       | None => ""
       end;
     cls_methods := _extract_methods node code;
     cls_bases :=
       match first_child (has_type "argument_list") node with
       | Some child => _extract_bases child code
       | None => []
       end;
     cls_line_start := fst (start_point node) + 1;
     cls_line_end := fst (end_point node) + 1 |}.

(** What [_traverse_node] records at one node, before it descends. *)
Definition own_functions (code : string) (n : Node) : list FunctionEntity :=
  if has_type "function_definition" n then [function_record code n] else [].

Definition own_classes (code : string) (n : Node) : list ClassEntity :=
  if has_type "function_definition" n then []
  else if has_type "class_definition" n then [class_record code n] else [].

Definition own_imports (code : string) (n : Node) : list ImportRecord :=
  if has_type "function_definition" n then []
  else if has_type "class_definition" n then []
  else if has_type "import_statement" n || has_type "import_from_statement" n
  then [ {| imp_type := "import";
            imp_statement := node_text code n;
            imp_line := fst (start_point n) + 1 |} ]
  else [].

(** * Repository utilities ([backend/utils/repo_utils.py]) *)

(** ** More of [str]

    A [string] is read as a sequence of characters with code points below
    256; [len] is [String.length]. *)

Module PyStr.

Definition nl : string := String (ascii_of_nat 10) "".

(** [c.isspace()] *)
Definition isspace (c : ascii) : bool :=
  let n := nat_of_ascii c in
  ((9 <=? n)%nat && (n <=? 13)%nat)
  || ((28 <=? n)%nat && (n <=? 32)%nat)
  || (n =? 133)%nat || (n =? 160)%nat.

Fixpoint lstrip (s : string) : string :=
  match s with
  | EmptyString => EmptyString
  | String c s' => if isspace c then lstrip s' else s
  end.

Fixpoint rstrip (s : string) : string :=
  match s with
  | EmptyString => EmptyString
  | String c s' =>
      match rstrip s' with
      | EmptyString => if isspace c then EmptyString else String c EmptyString
      | r => String c r
      end
  end.

(** [s.strip()] *)
Definition strip (s : string) : string := rstrip (lstrip s).

(** [s.split(sep)] for a one-character separator: never the empty list. *)
Fixpoint split (sep : ascii) (s : string) : list string :=
  match s with
  | EmptyString => [EmptyString]
  | String c s' =>
      if Ascii.eqb c sep then EmptyString :: split sep s'
      else
        match split sep s' with
        | piece :: pieces => String c piece :: pieces
        | [] => [String c EmptyString]
        end
  end.

(** [sep.join(l)] *)
Definition join (sep : string) (l : list string) : string :=
  String.concat sep l.

(** [s.startswith(p)] *)
Definition startswith (p s : string) : bool := String.prefix p s.

(** [needle in hay] *)
Fixpoint contains (needle hay : string) : bool :=
  String.prefix needle hay
  || match hay with
     | EmptyString => false
     | String _ hay' => contains needle hay'
     end.

(** [s.endswith(p)] *)
Definition endswith (p s : string) : bool :=
  (String.length p <=? String.length s)%nat
  && String.eqb (String.substring (String.length s - String.length p)
                                  (String.length p) s) p.

(** The number of occurrences of a character. *)
Fixpoint count (c : ascii) (s : string) : nat :=
  match s with
  | EmptyString => 0
  | String d s' => (if Ascii.eqb d c then 1 else 0) + count c s'
  end.

(** [str(n)] for a natural number. *)
Definition of_nat (n : nat) : string :=
  DecimalString.NilEmpty.string_of_uint (Nat.to_uint n).

End PyStr.

(** ** ReadmeAnalyzer.extract_summary *)

(** The loop over the lines: title lines and leading blank lines are
    skipped, the others collected until their lengths add up to
    [max_length]. *)
Fixpoint summary_loop (max_length : nat) (lines summary_lines : list string)
    (char_count : nat) : list string :=
  match lines with
  | [] => summary_lines
  | line :: rest =>
      if PyStr.startswith "#" line then
        summary_loop max_length rest summary_lines char_count
      else if String.eqb (PyStr.strip line) ""
              && match summary_lines with [] => true | _ => false end then
        summary_loop max_length rest summary_lines char_count
      else
        let summary_lines := summary_lines ++ [line] in
        let char_count := char_count + String.length line in
        if (max_length <=? char_count)%nat then summary_lines
        else summary_loop max_length rest summary_lines char_count
  end.

(** [max_length] is a length: not negative. *)
Definition extract_summary (content : string) (max_length : nat) : string :=
  if String.eqb content "" then "No README found"
  else
    let lines := PyStr.split (ascii_of_nat 10) content in
    let summary_lines := summary_loop max_length lines [] 0 in
    let summary := PyStr.join PyStr.nl (take 10 summary_lines) in
    let summary :=
      if (max_length <? String.length summary)%nat
      then String.substring 0 max_length summary +:+ "..."
      else summary in
    PyStr.strip summary.

(** ** File trees

    A node dictionary of the tree [FileTreeGenerator.generate_tree] builds:
    ['name'], ['type'] and ['path'] are always there, ['extension'] is there
    for every node but the root (and holds [None] unless the node is a
    file), ['children'] is there for directories only. *)

Inductive FileNode : Type :=
  mkFileNode {
    fn_name : string;
    fn_type : string;
    fn_path : string;
    fn_extension : option string;
    fn_children : option (list FileNode)
  }.

(** [d] is [n] or lies below it in the tree. *)
Inductive file_descendant : FileNode -> FileNode -> Prop :=
| file_descendant_self n : file_descendant n n
| file_descendant_child n cs c d :
    fn_children n = Some cs -> In c cs -> file_descendant c d ->
    file_descendant n d.

(** ** FileTreeGenerator.get_important_files *)

Fixpoint _find_files (node : FileNode) (patterns : gset string)
    (result : list string) : list string :=
  let result :=
    if String.eqb (fn_type node) "file"
       && bool_decide (fn_name node ∈ patterns)
    then result ++ [fn_path node]
    else result in
  match fn_children node with
  | Some children =>
      fold_left (fun result child => _find_files child patterns result)
                children result
  | None => result
  end.

Definition important_patterns : gset string :=
  list_to_set
    [ "main.py"; "app.py"; "__main__.py"; "setup.py";
      "main.jac"; "README.md"; "requirements.txt";
      "package.json"; "Cargo.toml"; "pom.xml" ].

(** The tree is the dictionary [generate_tree] returned: [{}] ([None]) for
    a root that does not exist, and then reading ['type'] raises. *)
Definition get_important_files (tree : option FileNode)
  : outcome (list string) :=
  match tree with
  | None => Raise "KeyError"
  | Some node => Return (_find_files node important_patterns [])
  end.

(** ** FileTreeGenerator.generate_tree *)

(** An entry [path.iterdir()] yields: its [name], [str(item)], what
    [is_dir()] and [is_file()] answer for it, and its [suffix]. *)
Record DirItem := {
  item_name : string;
  item_path : string;
  item_is_dir : bool;
  item_is_file : bool;
  item_suffix : string
}.

(** The file system as [generate_tree] sees it: [Path(p).exists()],
    [Path(p).name], [str(Path(p))], and the listing of a directory, which
    may raise (the message is the exception class). *)
Record FileSystem := {
  fs_exists : string -> bool;
  fs_name : string -> string;
  fs_str : string -> string;
  fs_iterdir : string -> outcome (list DirItem)
}.

Definition IGNORE_DIRS : list string :=
  [ ".git"; "__pycache__"; "node_modules"; "venv"; "env";
    ".venv"; ".env"; "dist"; "build"; ".idea"; ".vscode";
    "coverage"; ".pytest_cache"; ".mypy_cache"; "target" ].

Definition kept_hidden_names : list string := [".env.example"; ".gitignore"].

(** The order of the sort key [(not x.is_dir(), x.name)]. *)
Definition item_le (a b : DirItem) : bool :=
  if Bool.eqb (negb (item_is_dir a)) (negb (item_is_dir b))
  then String.leb (item_name a) (item_name b)
  else item_is_dir a.

(** [sorted(items, key=...)]: a stable sort. *)
Fixpoint insert_item (x : DirItem) (l : list DirItem) : list DirItem :=
  match l with
  | [] => [x]
  | y :: l' => if item_le x y then x :: y :: l' else y :: insert_item x l'
  end.

Definition sorted_items (l : list DirItem) : list DirItem :=
  foldr insert_item [] l.

(** The child dictionary of an item; [children] is what the recursive call
    left in its ['children'] list. *)
Definition child_node (item : DirItem) (children : list FileNode) : FileNode :=
  {| fn_name := item_name item;
     fn_type := if item_is_dir item then "directory" else "file";
     fn_path := item_path item;
     fn_extension := if item_is_file item then Some (item_suffix item) else None;
     fn_children := if item_is_dir item then Some children else None |}.

Section BuildItems.

(** [self._build_tree(item, child, depth + 1, max_depth)], by the path of
    the item. *)
Variable recurse : string -> outcome (list FileNode).

(** The loop over the sorted items; [children] is [node['children']].  A
    [PermissionError] ends the loop and keeps what was appended, any other
    exception goes on to the caller. *)
Fixpoint build_items (items : list DirItem) (children : list FileNode)
  : outcome (list FileNode) :=
  match items with
  | [] => Return children
  | item :: rest =>
      if item_is_dir item && bool_decide (item_name item ∈ IGNORE_DIRS)
      then build_items rest children
      else if PyStr.startswith "." (item_name item)
              && negb (bool_decide (item_name item ∈ kept_hidden_names))
      then build_items rest children
      else if item_is_dir item then
        match recurse (item_path item) with
        | Return grandchildren =>
            build_items rest (children ++ [child_node item grandchildren])
        | Raise msg =>
            if String.eqb msg "PermissionError" then Return children
            else Raise msg
        end
      else build_items rest (children ++ [child_node item []])
  end.

End BuildItems.

(** [_build_tree]: [depth_left] is [max_depth - depth], and the result is
    what the call appends to the (empty) ['children'] of its node. *)
Fixpoint _build_tree (fs : FileSystem) (depth_left : nat) (path : string)
  : outcome (list FileNode) :=
  match depth_left with
  | 0 => Return []
  | S depth_left =>
      match fs_iterdir fs path with
      | Return listing =>
          build_items (_build_tree fs depth_left) (sorted_items listing) []
      | Raise msg =>
          if String.eqb msg "PermissionError" then Return [] else Raise msg
      end
  end.

(** [generate_tree]: [{}] ([None]) for a root that does not exist. *)
Definition generate_tree (fs : FileSystem) (root_path : string)
    (max_depth : nat) : outcome (option FileNode) :=
  if negb (fs_exists fs root_path) then Return None
  else
    match _build_tree fs max_depth (fs_str fs root_path) with
    | Return children =>
        Return (Some {| fn_name := fs_name fs root_path;
                        fn_type := "directory";
                        fn_path := fs_str fs root_path;
                        fn_extension := None;
                        fn_children := Some children |})
    | Raise msg => Raise msg
    end.

(** The number of levels below a node. *)
Fixpoint tree_height (node : FileNode) : nat :=
  match fn_children node with
  | Some children =>
      match children with
      | [] => 0
      | _ => S (list_max (map tree_height children))
      end
  | None => 0
  end.

(** What holds of a node [_build_tree] lists: a directory is not in
    [IGNORE_DIRS], a hidden name is one of the two kept, and exactly the
    directories have children. *)
Definition listed_ok (c : FileNode) : Prop :=
  (fn_type c = "directory" -> ~ In (fn_name c) IGNORE_DIRS)
  /\ (PyStr.startswith "." (fn_name c) = true ->
      In (fn_name c) kept_hidden_names)
  /\ (fn_type c = "file" \/ fn_type c = "directory")
  /\ (fn_type c = "directory" <-> fn_children c <> None).

(** Directories come before files in a child list. *)
Definition dirs_first (l : list FileNode) : Prop :=
  exists ds fs,
    l = ds ++ fs
    /\ Forall (fun c => fn_type c = "directory") ds
    /\ Forall (fun c => fn_type c = "file") fs.

(** The same of a listing. *)
Definition items_dirs_first (l : list DirItem) : Prop :=
  exists ds fs,
    l = ds ++ fs
    /\ Forall (fun i => item_is_dir i = true) ds
    /\ Forall (fun i => item_is_dir i = false) fs.

(** ** RepoCloner.clone_repository *)

(** [s.rstrip(c)] for one character. *)
Fixpoint rstrip_char (c : ascii) (s : string) : string :=
  match s with
  | EmptyString => EmptyString
  | String d s' =>
      match rstrip_char c s' with
      | EmptyString => if Ascii.eqb d c then EmptyString else String d EmptyString
      | r => String d r
      end
  end.

(** The directory name taken from the URL: its last component once the
    trailing slashes are gone, without one final [.git]. *)
Definition repo_name_of (repo_url : string) : string :=
  let repo_name := List.last (PyStr.split "/" (rstrip_char "/" repo_url)) "" in
  if PyStr.endswith ".git" repo_name
  then String.substring 0 (String.length repo_name - 4) repo_name
  else repo_name.

(** The effects of cloning, on a world [W]: each call gives back the world
    it leaves and what it returned or raised.  [cl_under base name] is
    [str(base_path / name)]. *)
Record Cloning (W : Type) := {
  cl_under : string -> string -> string;
  cl_exists : W -> string -> W * outcome bool;
  cl_rmtree : W -> string -> W * outcome unit;
  cl_clone_from : W -> string -> string -> W * outcome unit
}.
Arguments cl_under {W} _ _ _.
Arguments cl_exists {W} _ _ _.
Arguments cl_rmtree {W} _ _ _.
Arguments cl_clone_from {W} _ _ _ _.

(** [clone_repository]: every exception ends in [None]. *)
Definition clone_repository {W : Type} (io : Cloning W) (base_path : string)
    (w : W) (repo_url : string) : W * option string :=
  let repo_name := repo_name_of repo_url in
  let local_path := cl_under io base_path repo_name in
  match cl_exists io w local_path with
  | (w, Raise _) => (w, None)
  | (w, Return present) =>
      let '(w, removed) :=
        if present then cl_rmtree io w local_path else (w, Return tt) in
      match removed with
      | Raise _ => (w, None)
      | Return _ =>
          match cl_clone_from io w repo_url local_path with
          | (w, Raise _) => (w, None)
          | (w, Return _) => (w, Some local_path)
          end
      end
  end.

(** * Documentation generator ([backend/utils/doc_generator.py]) *)

(** ** MarkdownGenerator._format_tree

    The text literals are the UTF-8 bytes of the source file's literals. *)

Section FormatChildren.

Variable format : FileNode -> bool -> string.
Variable total : nat.

(** [for i, child in enumerate(children[:20])], from index [i] on; [total]
    is [len(children)]. *)
Fixpoint format_children (children : list FileNode) (i : nat) : list string :=
  match children with
  | [] => []
  | child :: rest =>
      if (i <? 20)%nat
      then format child (i =? total - 1)%nat :: format_children rest (S i)
      else []
  end.

End FormatChildren.

Fixpoint format_node (node : FileNode) (prefix : string) (is_last : bool)
  : string :=
  let connector := if is_last then "└── " else "├── " in
  let line := prefix +:+ connector +:+ fn_name node +:+ PyStr.nl in
  let lines :=
    match fn_children node with
    | Some ((_ :: _) as children) =>
        let extension := if is_last then "    " else "│   " in
        let new_prefix := prefix +:+ extension in
        [line]
        ++ format_children (fun child is_last_child =>
                              format_node child new_prefix is_last_child)
                           (length children) children 0
        ++ (if (20 <? length children)%nat
            then [ new_prefix +:+ "└── ... ("
                   +:+ PyStr.of_nat (length children - 20)
                   +:+ " more items)" +:+ PyStr.nl ]
            else [])
    | _ => [line]
    end in
  PyStr.join "" lines.

(** [_format_tree]: nothing for the empty dictionary, else the node. *)
Definition _format_tree (node : option FileNode) (prefix : string)
    (is_last : bool) : string :=
  match node with
  | None => ""
  | Some node => format_node node prefix is_last
  end.

Definition _generate_structure_section (file_tree : option FileNode) : string :=
  let section := "## 📁 Repository Structure" +:+ PyStr.nl +:+ PyStr.nl in
  let section := section +:+ "```" +:+ PyStr.nl in
  let section := section +:+ _format_tree file_tree "" true in
  let section := section +:+ "```" +:+ PyStr.nl +:+ PyStr.nl in
  let section := section +:+ "---" +:+ PyStr.nl in
  section.

Section ShownChildren.

Variable shown : FileNode -> nat.

(** The entries of the children at indices [i], [i+1], ... below 20. *)
Fixpoint shown_children (children : list FileNode) (i : nat) : nat :=
  match children with
  | [] => 0
  | child :: rest =>
      if (i <? 20)%nat then shown child + shown_children rest (S i) else 0
  end.

End ShownChildren.

(** The entries [format_node] writes a line for: the node, the entries of
    its first twenty children, and one more for the children left out. *)
Fixpoint shown_entries (node : FileNode) : nat :=
  match fn_children node with
  | Some children =>
      1 + shown_children shown_entries children 0
      + (if (20 <? length children)%nat then 1 else 0)
  | None => 1
  end.

(** ** MarkdownGenerator._generate_usage_section *)

(** [os.path.join] and [os.path.exists], as the generator calls them. *)
Record OsPath := {
  os_path_join : string -> string -> string;
  os_path_exists : string -> bool
}.

Record MarkdownGenerator := {
  repo_name : string;
  repo_url : string;
  sections : list string
}.

Definition MarkdownGenerator_init (repo_name repo_url : string)
  : MarkdownGenerator :=
  {| repo_name := repo_name; repo_url := repo_url; sections := [] |}.

(** The text appended when [requirements.txt] exists, and the text appended
    for the first entry point that exists. *)
Definition installation_block (repo_url : string) : string :=
  "### Installation" +:+ PyStr.nl +:+ PyStr.nl
  +:+ "```bash" +:+ PyStr.nl
  +:+ "# Clone the repository" +:+ PyStr.nl
  +:+ "git clone " +:+ repo_url +:+ PyStr.nl +:+ PyStr.nl
  +:+ "# Install dependencies" +:+ PyStr.nl
  +:+ "pip install -r requirements.txt" +:+ PyStr.nl
  +:+ "```" +:+ PyStr.nl +:+ PyStr.nl.

Definition usage_block (entry : string) : string :=
  "### Usage" +:+ PyStr.nl +:+ PyStr.nl
  +:+ "```bash" +:+ PyStr.nl
  +:+ "python " +:+ entry +:+ PyStr.nl
  +:+ "```" +:+ PyStr.nl +:+ PyStr.nl.

Definition usage_heading : string :=
  "## 🚀 Installation & Usage" +:+ PyStr.nl +:+ PyStr.nl.

Definition entry_points : list string := ["main.py"; "app.py"; "__main__.py"].

Definition _generate_usage_section (os : OsPath) (self : MarkdownGenerator)
    (local_path : string) : string :=
  let section := usage_heading in
  let req_path := os_path_join os local_path "requirements.txt" in
  let section :=
    if os_path_exists os req_path
    then section +:+ installation_block (repo_url self)
    else section in
  let section :=
    match List.find
            (fun entry => os_path_exists os (os_path_join os local_path entry))
            entry_points with
    | Some entry => section +:+ usage_block entry
    | None => section
    end in
  let section :=
    if negb (PyStr.contains "Installation" section)
       && negb (PyStr.contains "Usage" section)
    then section
         +:+ "*Installation and usage instructions not available.*"
         +:+ PyStr.nl +:+ PyStr.nl
    else section in
  section +:+ "---" +:+ PyStr.nl.

(** * FileSelector ([backend/utils/code_analyzer.py]) *)

(** A path the file system yields for a pattern: [str(file)] and
    [file.parts]. *)
Record FoundPath := {
  fp_str : string;
  fp_parts : list string
}.

Definition priority_patterns : list string :=
  [ "main.py"; "app.py"; "__main__.py"; "__init__.py";
    "main.jac"; "server.py"; "run.py"; "start.py" ].

Definition skip_dirs : list string :=
  [ ".git"; "__pycache__"; "node_modules"; "venv";
    "env"; ".venv"; "dist"; "build"; "tests"; "test" ].

(** [any(skip in file.parts for skip in skip_dirs)] *)
Definition skipped (file : FoundPath) : bool :=
  existsb (fun skip => bool_decide (skip ∈ fp_parts file)) skip_dirs.

(** The first pass over one pattern's files. *)
Definition priority_scan (files : list FoundPath) (priority_files : list string)
  : list string :=
  fold_left
    (fun priority_files file =>
       if negb (skipped file) then priority_files ++ [fp_str file]
       else priority_files)
    files priority_files.

(** The second pass over one extension's files; it stops at the file that
    fills the list. *)
Fixpoint extension_scan (max_files : nat) (files : list FoundPath)
    (code_files : list string) : list string :=
  match files with
  | [] => code_files
  | file :: rest =>
      if negb (bool_decide (fp_str file ∈ code_files)) then
        if negb (skipped file) then
          let code_files := code_files ++ [fp_str file] in
          if (max_files <=? length code_files)%nat then code_files
          else extension_scan max_files rest code_files
        else extension_scan max_files rest code_files
      else extension_scan max_files rest code_files
  end.

Section GetCodeFiles.

(** [root_path.rglob(pattern)], and the order in which the set
    [code_extensions] happens to be iterated. *)
Variable rglob : string -> list FoundPath.
Variable code_extensions : list string.

Fixpoint extensions_scan (max_files : nat) (exts : list string)
    (code_files : list string) : list string :=
  match exts with
  | [] => code_files
  | ext :: rest =>
      let code_files :=
        extension_scan max_files (rglob ("*" +:+ ext)) code_files in
      if (max_files <=? length code_files)%nat then code_files
      else extensions_scan max_files rest code_files
  end.

Definition found_priority_files : list string :=
  fold_left (fun priority_files pattern =>
               priority_scan (rglob pattern) priority_files)
            priority_patterns [].

(** [max_files] is a count: not negative. *)
Definition get_code_files (max_files : nat) : list string :=
  let code_files := [] ++ take 10 found_priority_files in
  let code_files :=
    if (length code_files <? max_files)%nat
    then extensions_scan max_files code_extensions code_files
    else code_files in
  take max_files code_files.

End GetCodeFiles.

(** A path [get_code_files] may select: the path of a file found for a
    priority pattern or for an extension, with no part in [skip_dirs]. *)
Definition selectable (rglob : string -> list FoundPath)
    (code_extensions : list string) (p : string) : Prop :=
  exists pattern file,
    (In pattern priority_patterns
     \/ exists ext, In ext code_extensions /\ pattern = "*" +:+ ext)
    /\ In file (rglob pattern)
    /\ fp_str file = p
    /\ skipped file = false.

(** ** Sample inputs for the utilities *)

Module Sample.

(** A small repository tree; [setup.py] is a directory here. *)
Definition repo_tree : FileNode :=
  mkFileNode "repo" "directory" "/r" None
    (Some [ mkFileNode "src" "directory" "/r/src" None
              (Some [ mkFileNode "main.py" "file" "/r/src/main.py"
                        (Some ".py") None ]);
            mkFileNode "README.md" "file" "/r/README.md" (Some ".md") None;
            mkFileNode "setup.py" "directory" "/r/setup.py" None (Some []) ]).

(** A repository with nothing to install or run. *)
Definition bare_os : OsPath :=
  {| os_path_join := fun a b => a +:+ "/" +:+ b;
     os_path_exists := fun _ => false |}.

(** A repository with [requirements.txt] and [app.py]. *)
Definition app_os : OsPath :=
  {| os_path_join := fun a b => a +:+ "/" +:+ b;
     os_path_exists := fun p =>
       String.eqb p "repo/requirements.txt" || String.eqb p "repo/app.py" |}.

Definition found (parts : list string) : FoundPath :=
  {| fp_str := PyStr.join "/" parts; fp_parts := parts |}.

(** The files of a small repository, by pattern. *)
Definition repo_rglob (pattern : string) : list FoundPath :=
  if String.eqb pattern "main.py" then [found ["repo"; "main.py"]]
  else if String.eqb pattern "__init__.py"
       then [found ["repo"; "pkg"; "__init__.py"];
             found ["repo"; "tests"; "__init__.py"]]
  else if String.eqb pattern "*.py"
       then [found ["repo"; "main.py"];
             found ["repo"; "pkg"; "__init__.py"];
             found ["repo"; "pkg"; "core.py"];
             found ["repo"; "tests"; "__init__.py"];
             found ["repo"; "tests"; "test_core.py"];
             found ["repo"; "venv"; "lib"; "site.py"]]
  else if String.eqb pattern "*.js" then [found ["repo"; "web"; "app.js"]]
  else [].

(** The same files, seen from a clone placed in a directory [build]. *)
Definition build_rglob (pattern : string) : list FoundPath :=
  map (fun file => found ("build" :: fp_parts file)) (repo_rglob pattern).

Definition dir_item (name path : string) : DirItem :=
  {| item_name := name; item_path := path; item_is_dir := true;
     item_is_file := false; item_suffix := "" |}.

Definition file_item (name path suffix : string) : DirItem :=
  {| item_name := name; item_path := path; item_is_dir := false;
     item_is_file := true; item_suffix := suffix |}.

(** A checkout with a [.git] directory, a [node_modules], a hidden file, a
    directory that may not be listed, and sources two levels down. *)
Definition checkout : FileSystem :=
  {| fs_exists := fun p => String.eqb p "/w/repo";
     fs_name := fun _ => "repo";
     fs_str := fun p => p;
     fs_iterdir := fun p =>
       if String.eqb p "/w/repo" then
         Return [ file_item "setup.py" "/w/repo/setup.py" ".py";
                  dir_item ".git" "/w/repo/.git";
                  file_item ".gitignore" "/w/repo/.gitignore" "";
                  file_item ".secret" "/w/repo/.secret" "";
                  dir_item "src" "/w/repo/src";
                  dir_item "node_modules" "/w/repo/node_modules";
                  dir_item "locked" "/w/repo/locked";
                  file_item "README.md" "/w/repo/README.md" ".md" ]
       else if String.eqb p "/w/repo/src" then
         Return [ file_item "main.py" "/w/repo/src/main.py" ".py";
                  dir_item "pkg" "/w/repo/src/pkg" ]
       else if String.eqb p "/w/repo/src/pkg" then
         Return [ file_item "core.py" "/w/repo/src/pkg/core.py" ".py" ]
       else if String.eqb p "/w/repo/locked" then Raise "PermissionError"
       else Raise "FileNotFoundError" |}.

(** The tree of the checkout, two levels deep. *)
Definition checkout_tree : FileNode :=
  Eval vm_compute in
    match generate_tree checkout "/w/repo" 2 with
    | Return (Some tree) => tree
    | _ => mkFileNode "" "" "" None None
    end.

(** A root whose listing is refused. *)
Definition locked_root : FileSystem :=
  {| fs_exists := fun _ => true;
     fs_name := fun _ => "vault";
     fs_str := fun p => p;
     fs_iterdir := fun _ => Raise "PermissionError" |}.

(** A world that records the directories present; cloning creates one. *)
Definition disk : Cloning (list string) :=
  {| cl_under := fun base name => base +:+ "/" +:+ name;
     cl_exists := fun w p => (w, Return (bool_decide (p ∈ w)));
     cl_rmtree := fun w p =>
       (List.filter (fun q => negb (String.eqb q p)) w, Return tt);
     cl_clone_from := fun w url p =>
       if PyStr.startswith "https://" url then (p :: w, Return tt)
       else (w, Raise "GitCommandError") |}.

End Sample.

(** * Properties *)

(** ** Ingestion appends *)

Section Ingestion.

Variable file_path : string.
Implicit Types (fs : list FunctionEntity) (cs : list ClassEntity).

Lemma append_edges_nodes (mk : string -> GraphEdge) (l : list string)
    (g : CodeContextGraph) :
  nodes (fold_left (fun self x => append_edge self (mk x)) l g) = nodes g.
Proof.
  revert g; induction l as [|x l IH]; intros g; simpl; [done|].
  by rewrite IH.
Qed.

Lemma append_edges_edges (mk : string -> GraphEdge) (l : list string)
    (g : CodeContextGraph) :
  edges (fold_left (fun self x => append_edge self (mk x)) l g)
  = edges g ++ map mk l.
Proof.
  revert g; induction l as [|x l IH]; intros g; simpl.
  - by rewrite app_nil_r.
  - rewrite IH. simpl. by rewrite <- app_assoc.
Qed.

Lemma append_edges_file_map (mk : string -> GraphEdge) (l : list string)
    (g : CodeContextGraph) :
  file_map (fold_left (fun self x => append_edge self (mk x)) l g)
  = file_map g.
Proof.
  revert g; induction l as [|x l IH]; intros g; simpl; [done|].
  by rewrite IH.
Qed.

Lemma functions_loop_nodes fs g :
  nodes (functions_loop file_path fs g) = nodes g ++ map (function_node file_path) fs.
Proof.
  unfold functions_loop.
  revert g; induction fs as [|f fs IH]; intros g; simpl.
  - by rewrite app_nil_r.
  - rewrite IH, append_edges_nodes. simpl. by rewrite <- app_assoc.
Qed.

Lemma functions_loop_edges fs g :
  edges (functions_loop file_path fs g)
  = edges g ++ flat_map (function_edges file_path) fs.
Proof.
  unfold functions_loop.
  revert g; induction fs as [|f fs IH]; intros g; simpl.
  - by rewrite app_nil_r.
  - rewrite IH, append_edges_edges. simpl. by rewrite <- app_assoc.
Qed.

Lemma functions_loop_file_map fs g :
  file_map (functions_loop file_path fs g) = file_map g.
Proof.
  unfold functions_loop.
  revert g; induction fs as [|f fs IH]; intros g; simpl; [done|].
  by rewrite IH, append_edges_file_map.
Qed.

Lemma classes_loop_nodes cs g :
  nodes (classes_loop file_path cs g) = nodes g ++ map (class_node file_path) cs.
Proof.
  unfold classes_loop.
  revert g; induction cs as [|c cs IH]; intros g; simpl.
  - by rewrite app_nil_r.
  - rewrite IH, append_edges_nodes. simpl. by rewrite <- app_assoc.
Qed.

Lemma classes_loop_edges cs g :
  edges (classes_loop file_path cs g)
  = edges g ++ flat_map (class_edges file_path) cs.
Proof.
  unfold classes_loop.
  revert g; induction cs as [|c cs IH]; intros g; simpl.
  - by rewrite app_nil_r.
  - rewrite IH, append_edges_edges. simpl. by rewrite <- app_assoc.
Qed.

Lemma classes_loop_file_map cs g :
  file_map (classes_loop file_path cs g) = file_map g.
Proof.
  unfold classes_loop.
  revert g; induction cs as [|c cs IH]; intros g; simpl; [done|].
  by rewrite IH, append_edges_file_map.
Qed.

End Ingestion.

Lemma add_file_analysis_loops g a :
  add_file_analysis g a
  = let g' := classes_loop (analysis_path a) (default [] (a_classes a))
                (functions_loop (analysis_path a) (default [] (a_functions a)) g)
    in
    {| nodes := nodes g';
       edges := edges g';
       file_map :=
         <[ analysis_path a :=
              {| fe_functions := map func_name (default [] (a_functions a));
                 fe_classes := map cls_name (default [] (a_classes a)) |} ]>
           (file_map g') |}.
Proof. reflexivity. Qed.

Lemma add_file_analysis_nodes g a :
  nodes (add_file_analysis g a) = nodes g ++ analysis_nodes a.
Proof.
  rewrite add_file_analysis_loops. cbv zeta. cbn [nodes].
  rewrite classes_loop_nodes, functions_loop_nodes.
  unfold analysis_nodes. by rewrite <- app_assoc.
Qed.

Lemma add_file_analysis_edges g a :
  edges (add_file_analysis g a) = edges g ++ analysis_edges a.
Proof.
  rewrite add_file_analysis_loops. cbv zeta. cbn [edges].
  rewrite classes_loop_edges, functions_loop_edges.
  unfold analysis_edges. by rewrite <- app_assoc.
Qed.

Lemma add_file_analysis_file_map g a :
  file_map (add_file_analysis g a)
  = <[ analysis_path a :=
         {| fe_functions := map func_name (default [] (a_functions a));
            fe_classes := map cls_name (default [] (a_classes a)) |} ]>
      (file_map g).
Proof.
  rewrite add_file_analysis_loops. cbv zeta. cbn [file_map].
  by rewrite classes_loop_file_map, functions_loop_file_map.
Qed.

Lemma ingest_all_nodes l g :
  nodes (fold_left add_file_analysis l g) = nodes g ++ flat_map analysis_nodes l.
Proof.
  revert g; induction l as [|a l IH]; intros g; simpl.
  - by rewrite app_nil_r.
  - by rewrite IH, add_file_analysis_nodes, <- app_assoc.
Qed.

Lemma ingest_all_edges l g :
  edges (fold_left add_file_analysis l g) = edges g ++ flat_map analysis_edges l.
Proof.
  revert g; induction l as [|a l IH]; intros g; simpl.
  - by rewrite app_nil_r.
  - by rewrite IH, add_file_analysis_edges, <- app_assoc.
Qed.

Lemma build_nodes l : nodes (build l) = flat_map analysis_nodes l.
Proof. unfold build. by rewrite ingest_all_nodes. Qed.

Lemma build_edges l : edges (build l) = flat_map analysis_edges l.
Proof. unfold build. by rewrite ingest_all_edges. Qed.

(** ** Statistics *)

Lemma analysis_node_types a n :
  In n (analysis_nodes a) -> gn_type n = "function" \/ gn_type n = "class".
Proof.
  unfold analysis_nodes. rewrite in_app_iff, !in_map_iff.
  intros [(f & <- & _) | (c & <- & _)]; [left | right]; reflexivity.
Qed.

Lemma built_node_types l n :
  In n (nodes (build l)) -> gn_type n = "function" \/ gn_type n = "class".
Proof.
  rewrite build_nodes, in_flat_map. intros (a & _ & Hn).
  eapply analysis_node_types, Hn.
Qed.

Lemma typed_nodes_partition (ns : list GraphNode) :
  (forall n, In n ns -> gn_type n = "function" \/ gn_type n = "class") ->
  length ns
  = length (List.filter (fun n => String.eqb (gn_type n) "function") ns)
    + length (List.filter (fun n => String.eqb (gn_type n) "class") ns).
Proof.
  induction ns as [|n ns IH]; intros H; simpl; [done|].
  rewrite IH by (intros m Hm; apply H; by right).
  destruct (H n (or_introl eq_refl)) as [-> | ->]; simpl; lia.
Qed.

(** C3. After any sequence of ingestions, [get_statistics] reports a
    [total_nodes] equal to its [functions] count plus its [classes] count:
    every node is a function node or a class node, never both. *)
Theorem statistics_total_nodes (analyses : list Analysis) :
  total_nodes (get_statistics (build analyses))
  = stat_functions (get_statistics (build analyses))
    + stat_classes (get_statistics (build analyses)).
Proof.
  unfold get_statistics; simpl.
  apply typed_nodes_partition, built_node_types.
Qed.

(** ** Re-ingestion *)

Lemma repeated_id_not_unique (ns : list GraphNode) n l1 l2 l3 :
  ns = l1 ++ n :: l2 ++ n :: l3 -> ~ NoDup (map gn_id ns).
Proof.
  intros -> Hnd. rewrite map_app in Hnd.
  apply NoDup_app in Hnd as (_ & _ & Hnd). simpl in Hnd.
  apply NoDup_cons in Hnd as [Hnin _]. apply Hnin.
  apply list_elem_of_In. rewrite map_app, in_app_iff. right. by left.
Qed.

(** C5. Ingesting the same analysis a second time appends a second copy of
    each of its nodes and edges after the first: nothing is replaced, every
    node of the analysis then occurs twice, and its id is no longer unique. *)
Theorem reingest_appends (g : CodeContextGraph) (a : Analysis) :
  let g2 := add_file_analysis (add_file_analysis g a) a in
  nodes g2 = nodes g ++ analysis_nodes a ++ analysis_nodes a
  /\ edges g2 = edges g ++ analysis_edges a ++ analysis_edges a
  /\ (forall n, In n (analysis_nodes a) ->
        (exists l1 l2 l3, nodes g2 = l1 ++ n :: l2 ++ n :: l3)
        /\ ~ NoDup (map gn_id (nodes g2))).
Proof.
  intros g2.
  assert (Hn : nodes g2 = nodes g ++ analysis_nodes a ++ analysis_nodes a).
  { unfold g2. by rewrite !add_file_analysis_nodes, <- app_assoc. }
  split; [exact Hn|]. split.
  { unfold g2. by rewrite !add_file_analysis_edges, <- app_assoc. }
  intros n Hin.
  destruct (in_split _ _ Hin) as (p & q & Hpq).
  assert (Hex : exists l1 l2 l3, nodes g2 = l1 ++ n :: l2 ++ n :: l3).
  { exists (nodes g ++ p), (q ++ p), q. rewrite Hn, Hpq.
    by rewrite <- !app_assoc, <- !app_comm_cons. }
  split; [exact Hex|].
  destruct Hex as (l1 & l2 & l3 & Hex).
  eapply repeated_id_not_unique, Hex.
Qed.

(** ** Callers *)

Lemma find_callers_loop (x : string) (es : list GraphEdge) (acc : list string) :
  fold_left
    (fun callers edge =>
       if String.eqb (ge_type edge) "calls" && String.eqb (ge_to edge) x
       then callers ++ [ge_from edge]
       else callers)
    es acc
  = acc ++ map ge_from
             (filter (fun e => ge_type e = "calls" /\ ge_to e = x) es).
Proof.
  revert acc; induction es as [|e es IH]; intros acc; simpl.
  - by rewrite app_nil_r.
  - rewrite IH.
    destruct (String.eqb_spec (ge_type e) "calls") as [Ht|Ht];
      destruct (String.eqb_spec (ge_to e) x) as [Hx|Hx]; simpl.
    + rewrite filter_cons_True by done. simpl. by rewrite <- app_assoc.
    + rewrite filter_cons_False by (intros [_ ?]; done). done.
    + rewrite filter_cons_False by (intros [? _]; done). done.
    + rewrite filter_cons_False by (intros [? _]; done). done.
Qed.

Lemma find_callers_filter g x :
  find_callers g x
  = map ge_from (filter (fun e => ge_type e = "calls" /\ ge_to e = x) (edges g)).
Proof. unfold find_callers. by rewrite find_callers_loop. Qed.

Lemma function_edges_ingested l a f :
  In a l -> In f (default [] (a_functions a)) ->
  forall e, In e (function_edges (analysis_path a) f) -> In e (edges (build l)).
Proof.
  intros Ha Hf e He. rewrite build_edges, in_flat_map.
  exists a. split; [done|]. unfold analysis_edges.
  rewrite in_app_iff. left. rewrite in_flat_map. eauto.
Qed.

(** C4. [find_callers x] is exactly the list of the [from] ids of the edges
    of type [calls] whose [to] is the string [x], in edge order; hence a
    function ingested with [target] in its call list has its node id among
    [find_callers target]. *)
Theorem find_callers_exact :
  (forall (g : CodeContextGraph) (x : string),
     find_callers g x
     = map ge_from
         (filter (fun e => ge_type e = "calls" /\ ge_to e = x) (edges g)))
  /\ (forall (analyses : list Analysis) (a : Analysis) (f : FunctionEntity)
        (target : string),
        In a analyses ->
        In f (default [] (a_functions a)) ->
        In target (func_calls f) ->
        In (make_node_id (analysis_path a) (func_name f))
           (find_callers (build analyses) target)).
Proof.
  split; [apply find_callers_filter|].
  intros l a f target Ha Hf Ht.
  rewrite find_callers_filter, in_map_iff.
  exists (calls_edge (analysis_path a)
            (make_node_id (analysis_path a) (func_name f)) target).
  split; [done|].
  apply list_elem_of_In, list_elem_of_filter. split; [done|].
  apply list_elem_of_In. eapply function_edges_ingested; eauto.
  unfold function_edges. by apply in_map.
Qed.

(** ** Callees *)

Lemma find_callees_loop_skip x (pre rest : list GraphNode) acc :
  Forall (fun m => gn_name m <> x) pre ->
  find_callees_loop x (pre ++ rest) acc = find_callees_loop x rest acc.
Proof.
  induction 1 as [|m pre Hm _ IH]; simpl; [done|].
  destruct (String.eqb_spec (gn_name m) x); [done | exact IH].
Qed.

Lemma find_callees_loop_hit x n (post : list GraphNode) acc :
  gn_name n = x ->
  find_callees_loop x (n :: post) acc = default [] (gn_calls n).
Proof. intros <-. simpl. by rewrite String.eqb_refl. Qed.

(** C6. [find_callees x] is the call list stored on the first node, in
    insertion order, whose name is [x] (read with [[]] as the default);
    later nodes of the same name, as when several files define a function
    called [x], are not consulted. *)
Theorem find_callees_first_match (g : CodeContextGraph) (x : string)
    (pre post : list GraphNode) (n : GraphNode) :
  nodes g = pre ++ n :: post ->
  Forall (fun m => gn_name m <> x) pre ->
  gn_name n = x ->
  find_callees g x = default [] (gn_calls n).
Proof.
  intros Hg Hpre Hn. unfold find_callees. rewrite Hg.
  rewrite find_callees_loop_skip by done.
  by apply find_callees_loop_hit.
Qed.

Lemma built_class_node_no_calls l n :
  In n (nodes (build l)) -> gn_type n = "class" -> gn_calls n = None.
Proof.
  rewrite build_nodes, in_flat_map. intros (a & _ & Hn).
  unfold analysis_nodes in Hn. rewrite in_app_iff, !in_map_iff in Hn.
  destruct Hn as [(f & <- & _) | (c & <- & _)]; simpl; [discriminate | done].
Qed.

(** C10. [find_callees x] is empty when no node is named [x], and also when
    the first node named [x] of a built graph is a class node, whatever
    function nodes of that name come later: a class node has no call list. *)
Theorem find_callees_empty (g : CodeContextGraph) (x : string) :
  Forall (fun m => gn_name m <> x) (nodes g)
  \/ (exists (analyses : list Analysis) (pre post : list GraphNode)
        (n : GraphNode),
        g = build analyses
        /\ nodes g = pre ++ n :: post
        /\ Forall (fun m => gn_name m <> x) pre
        /\ gn_name n = x
        /\ gn_type n = "class") ->
  find_callees g x = [].
Proof.
  intros [Hnone | (l & pre & post & n & -> & Hg & Hpre & Hn & Hty)].
  - unfold find_callees.
    rewrite <- (app_nil_r (nodes g)). by rewrite find_callees_loop_skip.
  - unfold find_callees. rewrite Hg, find_callees_loop_skip by done.
    rewrite find_callees_loop_hit by done.
    rewrite (built_class_node_no_calls l n); [done | | done].
    rewrite Hg, in_app_iff. right. by left.
Qed.

(** ** Node ids *)

Lemma append_empty (t : string) : "" +:+ t = t.
Proof. reflexivity. Qed.

Lemma append_String (c : ascii) (s t : string) :
  String c s +:+ t = String c (s +:+ t).
Proof. reflexivity. Qed.

Lemma lacks_colon_app (s t : string) :
  Str.lacks ":" (s +:+ String ":" t) = false.
Proof.
  induction s as [|c s IH]; rewrite ?append_empty, ?append_String; simpl.
  - done.
  - rewrite IH. apply andb_false_r.
Qed.

(** A name without a colon can be read back from the id: the composite
    [path::name] determines both parts. *)
Lemma make_node_id_inj (f1 n1 f2 n2 : string) :
  colon_free n1 = true -> colon_free n2 = true ->
  make_node_id f1 n1 = make_node_id f2 n2 -> f1 = f2 /\ n1 = n2.
Proof.
  unfold make_node_id, colon_free. intros H1 H2.
  revert f2; induction f1 as [|c f1 IH]; intros [|d f2] Heq;
    rewrite ?append_String, ?append_empty in Heq.
  - injection Heq as ->. done.
  - injection Heq as <- Heq. exfalso.
    destruct f2 as [|e f2]; rewrite ?append_String, ?append_empty in Heq.
    + injection Heq as ->. simpl in H1. discriminate.
    + injection Heq as <- ->.
      by rewrite lacks_colon_app in H1.
  - injection Heq as -> Heq. exfalso.
    destruct f1 as [|e f1]; rewrite ?append_String, ?append_empty in Heq.
    + injection Heq as <-. simpl in H2. discriminate.
    + injection Heq as -> <-.
      by rewrite lacks_colon_app in H2.
  - injection Heq as -> Heq.
    destruct (IH _ Heq) as [-> ->]. done.
Qed.

Lemma analysis_node_ids a :
  map gn_id (analysis_nodes a) = map key_id (analysis_keys a).
Proof.
  unfold analysis_nodes, analysis_keys.
  rewrite !map_app, !map_map. reflexivity.
Qed.

Lemma built_node_ids l :
  map gn_id (nodes (build l)) = map key_id (ingested_keys l).
Proof.
  rewrite build_nodes. unfold ingested_keys.
  induction l as [|a l IH]; simpl; [done|].
  by rewrite !map_app, IH, analysis_node_ids.
Qed.

Lemma NoDup_map_on {A B : Type} (f : A -> B) (l : list A) :
  (forall x y, In x l -> In y l -> f x = f y -> x = y) ->
  NoDup l -> NoDup (map f l).
Proof.
  intros Hinj Hnd. induction Hnd as [|x l Hx Hnd IH]; simpl.
  - constructor.
  - constructor.
    + rewrite list_elem_of_In, in_map_iff. intros (y & Hxy & Hy).
      apply Hx, list_elem_of_In.
      rewrite (Hinj x y); [done | by left | by right | done].
    + apply IH. intros u v Hu Hv. apply Hinj; by right.
Qed.

(** C1, as the code has it.  When no two ingested entities share both their
    file path and their name, and no entity name contains a colon, the node
    ids of the built graph are pairwise distinct; entities of the same name
    in files of different paths therefore get different ids. *)
Theorem node_ids_unique (analyses : list Analysis) :
  NoDup (ingested_keys analyses) ->
  Forall (fun k => colon_free (snd k) = true) (ingested_keys analyses) ->
  NoDup (map gn_id (nodes (build analyses))).
Proof.
  intros Hnd Hcf. rewrite built_node_ids.
  apply NoDup_map_on; [|exact Hnd].
  intros [f1 n1] [f2 n2] H1 H2 Heq.
  rewrite List.Forall_forall in Hcf.
  destruct (make_node_id_inj f1 n1 f2 n2) as [-> ->];
    [apply (Hcf _ H1) | apply (Hcf _ H2) | exact Heq | done].
Qed.

(** ** Call discovery *)

(** Induction on syntax trees: a property that holds of a node whenever it
    holds of all its children holds of every node. *)
Lemma Node_children_ind (P : Node -> Prop) :
  (forall n, Forall P (children n) -> P n) -> forall n, P n.
Proof.
  intros H. fix IH 1. intros n. apply H.
  destruct n as [ty sb eb sp ep cs]; simpl.
  induction cs as [|c cs IHcs]; constructor; [apply IH | exact IHcs].
Qed.

Lemma traverse_unfold code n calls :
  traverse code n calls
  = fold_left (fun calls child => traverse code child calls) (children n)
              (calls ++ call_name code n).
Proof.
  destruct n as [ty sb eb sp ep cs]; simpl. unfold call_name; simpl.
  destruct (has_type "call" _); [|by rewrite app_nil_r].
  destruct (List.find _ cs); [done | by rewrite app_nil_r].
Qed.

Lemma traverse_children code (cs : list Node) :
  Forall (fun c => forall acc, traverse code c acc = acc ++ traverse code c [])
         cs ->
  forall acc,
    fold_left (fun calls child => traverse code child calls) cs acc
    = acc ++ flat_map (fun c => traverse code c []) cs.
Proof.
  induction 1 as [|c cs Hc _ IH]; intros acc; simpl.
  - by rewrite app_nil_r.
  - rewrite IH, Hc. by rewrite <- app_assoc.
Qed.

Lemma traverse_acc code n :
  forall acc, traverse code n acc = acc ++ traverse code n [].
Proof.
  induction n as [n IH] using Node_children_ind. intros acc.
  rewrite !traverse_unfold, !traverse_children by exact IH.
  simpl. by rewrite <- app_assoc.
Qed.

(** The calls found under a node are the call the node itself is, if any,
    followed by the calls found under each child, in order. *)
Lemma find_function_calls_unfold n code :
  _find_function_calls n code
  = call_name code n
    ++ flat_map (fun c => _find_function_calls c code) (children n).
Proof.
  unfold _find_function_calls.
  rewrite traverse_unfold, traverse_children; [done|].
  apply Forall_forall. intros c _. apply traverse_acc.
Qed.

(** So a call found under a child is also found under its parent: the
    calls of a nested definition are counted again for the enclosing one. *)
Lemma calls_of_child_counted n c code x :
  In c (children n) ->
  In x (_find_function_calls c code) ->
  In x (_find_function_calls n code).
Proof.
  intros Hc Hx. rewrite find_function_calls_unfold, in_app_iff. right.
  apply in_flat_map. eauto.
Qed.

(** C2, as the code has it.  For
    <<
    def outer():
        def foo(a, b):
            bar(); baz()
        foo()
    >>
    extraction yields exactly two function records, [outer] then [foo];
    [foo]'s call list is [bar, baz], and [outer]'s is [bar, baz, foo]: the
    calls of the nested definition are counted for the enclosing function
    too, in document order and without deduplication. *)
Theorem nested_function_calls :
  map function_summary (extracted_functions Scenario.nested_parsed)
  = [ ("outer", ["bar"; "baz"; "foo"]); ("foo", ["bar"; "baz"]) ].
Proof. vm_compute. reflexivity. Qed.

(** C2 fails as stated: [outer]'s call list is not [["foo"]]. *)
Lemma nested_outer_calls_more_than_foo :
  map function_summary (extracted_functions Scenario.nested_parsed)
  <> [ ("outer", ["foo"]); ("foo", ["bar"; "baz"]) ].
Proof. vm_compute. discriminate. Qed.

(** ** Methods *)

Lemma methods_inner_loop code (stmts : list Node) (acc : list MethodRecord) :
  fold_left
    (fun methods stmt =>
       if has_type "function_definition" stmt then
         let method_name :=
           match first_child (has_type "identifier") stmt with
           | Some node => node_text code node
           | None => ""
           end in
         methods ++ [ {| meth_name := method_name;
                         meth_line := fst (start_point stmt) + 1 |} ]
       else methods)
    stmts acc
  = acc ++ map (method_record code)
             (filter (fun stmt => node_type stmt = "function_definition") stmts).
Proof.
  revert acc; induction stmts as [|s stmts IH]; intros acc; simpl.
  - by rewrite app_nil_r.
  - rewrite IH. unfold has_type.
    destruct (String.eqb_spec (node_type s) "function_definition").
    + rewrite filter_cons_True by done. simpl. by rewrite <- app_assoc.
    + by rewrite filter_cons_False by done.
Qed.

Lemma extract_methods_blocks (cn : Node) (code : string) :
  _extract_methods cn code
  = flat_map
      (fun blk =>
         map (method_record code)
             (filter (fun stmt => node_type stmt = "function_definition")
                     (children blk)))
      (filter (fun child => node_type child = "block") (children cn)).
Proof.
  unfold _extract_methods.
  enough (H : forall cs acc,
             fold_left
               (fun methods child =>
                  if has_type "block" child then
                    fold_left
                      (fun methods stmt =>
                         if has_type "function_definition" stmt then
                           let method_name :=
                             match first_child (has_type "identifier") stmt with
                             | Some node => node_text code node
                             | None => ""
                             end in
                           methods ++ [ {| meth_name := method_name;
                                           meth_line := fst (start_point stmt) + 1 |} ]
                         else methods)
                      (children child) methods
                  else methods)
               cs acc
             = acc ++ flat_map
                 (fun blk =>
                    map (method_record code)
                        (filter (fun stmt => node_type stmt = "function_definition")
                                (children blk)))
                 (filter (fun child => node_type child = "block") cs))
    by apply (H (children cn) []).
  induction cs as [|c cs IH]; intros acc; simpl.
  - by rewrite app_nil_r.
  - rewrite IH. unfold has_type at 1.
    destruct (String.eqb_spec (node_type c) "block").
    + rewrite methods_inner_loop, filter_cons_True by done.
      simpl. by rewrite <- app_assoc.
    + by rewrite filter_cons_False by done.
Qed.

(** C7. For
    <<
    class Dog(Animal):
        def bark(self): ...
    >>
    extraction yields exactly one class record, named [Dog], with bases
    [Animal] and the single method [bark].  Methods are read off the
    function-definition children of the block children of the class node
    and nowhere else: the same definition placed under an [if] in the
    class body is not recorded as a method. *)
Theorem dog_class_methods :
  map class_summary (extracted_classes Scenario.dog_parsed)
  = [ ("Dog", ["Animal"], ["bark"]) ]
  /\ (forall (cn : Node) (code : string),
        _extract_methods cn code
        = flat_map
            (fun blk =>
               map (method_record code)
                   (filter (fun stmt => node_type stmt = "function_definition")
                           (children blk)))
            (filter (fun child => node_type child = "block") (children cn)))
  /\ map class_summary (extracted_classes Scenario.guarded_dog_parsed)
     = [ ("Dog", ["Animal"], []) ].
Proof.
  split; [vm_compute; reflexivity|].
  split; [apply extract_methods_blocks | vm_compute; reflexivity].
Qed.

(** ** Definitions without a name *)

Lemma first_child_none ty n :
  Forall (fun c => node_type c <> ty) (children n) ->
  first_child (has_type ty) n = None.
Proof.
  unfold first_child, has_type.
  induction 1 as [|c cs Hc _ IH]; simpl; [done|].
  destruct (String.eqb_spec (node_type c) ty); [done | exact IH].
Qed.

(** C9. A function or class definition node without an identifier child
    gives a record with the empty string as its name; extraction is a total
    function, so nothing is raised.  Ingesting an analysis that holds such
    records adds a function node and a class node named by the empty string,
    with id [path::]. *)
Theorem unnamed_definition_extracted (node : Node) (code : string)
    (self : PythonAnalyzer) (g : CodeContextGraph) (file_path : string) :
  Forall (fun c => node_type c <> "identifier") (children node) ->
  let fs := functions (_extract_function node code self) in
  let cs := classes (_extract_class node code self) in
  let g' := add_file_analysis g
              {| a_functions := Some fs; a_classes := Some cs;
                 a_imports := Some []; a_file_path := Some file_path |} in
  (exists f, fs = functions self ++ [f] /\ func_name f = "")
  /\ (exists c, cs = classes self ++ [c] /\ cls_name c = "")
  /\ (exists n, In n (nodes g') /\ gn_type n = "function" /\ gn_name n = ""
                /\ gn_id n = file_path +:+ "::")
  /\ (exists n, In n (nodes g') /\ gn_type n = "class" /\ gn_name n = ""
                /\ gn_id n = file_path +:+ "::").
Proof.
  intros Hno fs cs g'.
  assert (Hf : exists f, fs = functions self ++ [f] /\ func_name f = "").
  { unfold fs, _extract_function. rewrite (first_child_none _ _ Hno).
    eexists. split; reflexivity. }
  assert (Hc : exists c, cs = classes self ++ [c] /\ cls_name c = "").
  { unfold cs, _extract_class. rewrite (first_child_none _ _ Hno).
    eexists. split; reflexivity. }
  split; [exact Hf|]. split; [exact Hc|].
  destruct Hf as (f & Hfs & Hfn). destruct Hc as (c & Hcs & Hcn).
  split.
  - exists (function_node file_path f). unfold g'.
    rewrite add_file_analysis_nodes. unfold analysis_nodes, analysis_path.
    simpl. rewrite Hfn. repeat split.
    rewrite !in_app_iff. right. left. apply in_map.
    rewrite Hfs, in_app_iff. right. by left.
  - exists (class_node file_path c). unfold g'.
    rewrite add_file_analysis_nodes. unfold analysis_nodes, analysis_path.
    simpl. rewrite Hcn. repeat split.
    rewrite !in_app_iff. right. right. apply in_map.
    rewrite Hcs, in_app_iff. right. by left.
Qed.

(** ** Unsupported files *)

(** [parse_file] never lets an exception out. *)
Lemma parse_file_returns rt self file_path :
  exists r, parse_file rt self file_path = Return r.
Proof.
  unfold parse_file.
  destruct (detect_language rt file_path) as [language|]; [|eauto].
  destruct (String.eqb language ""); [eauto|].
  destruct (parsers self !! language) as [parser|]; [|eauto].
  destruct (read_text rt file_path) as [code|]; [|eauto].
  destruct (parser code); eauto.
Qed.

(** C8. When the extension of the file is not a key of the extension map,
    or the language it maps to has no parser in [self.parsers], [parse_file]
    returns [None]; it does not raise. *)
Theorem parse_file_unsupported (rt : Runtime) (self : CodeParser)
    (file_path : string) :
  ext_map !! str_lower rt (path_suffix rt file_path) = None
  \/ (exists language,
        ext_map !! str_lower rt (path_suffix rt file_path) = Some language
        /\ parsers self !! language = None) ->
  parse_file rt self file_path = Return None.
Proof.
  unfold parse_file, detect_language.
  intros [-> | (language & -> & Hp)]; [done|]. cbv beta iota.
  destruct (String.eqb language ""); [done|].
  unfold Parser in *. by rewrite Hp.
Qed.

(** * Instances *)

(** C1 fails as stated: ingesting one analysis twice, or an analysis that
    holds two functions of one name, gives two nodes with the same id. *)
Lemma node_ids_repeat :
  ~ NoDup (map gn_id (nodes (build [Example.file_b; Example.file_b])))
  /\ ~ NoDup (map gn_id (nodes (build [Example.file_twice]))).
Proof.
  split; intros H; vm_compute in H;
    inversion H as [|? ? Hnin _]; apply Hnin, list_elem_of_In; simpl; tauto.
Qed.

(** Without the condition on names, distinct (path, name) pairs can still
    give one id. *)
Lemma colon_names_collide :
  NoDup (ingested_keys [Example.colon_name_file; Example.colon_path_file])
  /\ ~ NoDup (map gn_id
                (nodes (build [Example.colon_name_file;
                               Example.colon_path_file]))).
Proof.
  split.
  - apply (bool_decide_unpack _). vm_compute. exact I.
  - intros H; vm_compute in H.
    inversion H as [|? ? Hnin _]; apply Hnin, list_elem_of_In; simpl; tauto.
Qed.

Lemma node_ids_unique_witness :
  NoDup (ingested_keys [Example.file_a; Example.file_b])
  /\ Forall (fun k => colon_free (snd k) = true)
            (ingested_keys [Example.file_a; Example.file_b])
  /\ NoDup (map gn_id (nodes (build [Example.file_a; Example.file_b]))).
Proof.
  assert (H1 : NoDup (ingested_keys [Example.file_a; Example.file_b])).
  { apply (bool_decide_unpack _). vm_compute. exact I. }
  assert (H2 : Forall (fun k => colon_free (snd k) = true)
                      (ingested_keys [Example.file_a; Example.file_b])).
  { vm_compute. repeat constructor. }
  split; [exact H1|]. split; [exact H2|].
  exact (node_ids_unique [Example.file_a; Example.file_b] H1 H2).
Defined.

Lemma reingest_appends_witness :
  In (function_node "b.py" Example.run_b) (analysis_nodes Example.file_b)
  /\ ~ NoDup
         (map gn_id
            (nodes (add_file_analysis
                      (add_file_analysis (build [Example.file_a]) Example.file_b)
                      Example.file_b))).
Proof.
  assert (Hin : In (function_node "b.py" Example.run_b)
                   (analysis_nodes Example.file_b)) by (simpl; tauto).
  split; [exact Hin|].
  exact (proj2 (proj2 (proj2 (reingest_appends (build [Example.file_a])
                                               Example.file_b)) _ Hin)).
Defined.

Lemma find_callers_exact_witness :
  In Example.file_a [Example.file_a; Example.file_b]
  /\ In Example.main_a (default [] (a_functions Example.file_a))
  /\ In "run" (func_calls Example.main_a)
  /\ In "a.py::main"
        (find_callers (build [Example.file_a; Example.file_b]) "run").
Proof.
  assert (H1 : In Example.file_a [Example.file_a; Example.file_b])
    by (simpl; tauto).
  assert (H2 : In Example.main_a (default [] (a_functions Example.file_a)))
    by (simpl; tauto).
  assert (H3 : In "run" (func_calls Example.main_a)) by (simpl; tauto).
  repeat (split; [assumption|]).
  exact (proj2 find_callers_exact _ _ _ _ H1 H2 H3).
Defined.

Lemma find_callees_first_match_witness :
  nodes (build [Example.file_a; Example.file_b])
  = [function_node "a.py" Example.main_a]
    ++ function_node "a.py" Example.run_a
    :: [class_node "a.py" (Example.class_named "Dog" ["Animal"]);
        function_node "b.py" Example.run_b;
        class_node "b.py" (Example.class_named "Dog" [])]
  /\ Forall (fun m => gn_name m <> "run") [function_node "a.py" Example.main_a]
  /\ gn_name (function_node "a.py" Example.run_a) = "run"
  /\ find_callees (build [Example.file_a; Example.file_b]) "run" = ["g"].
Proof.
  assert (H1 : nodes (build [Example.file_a; Example.file_b])
               = [function_node "a.py" Example.main_a]
                 ++ function_node "a.py" Example.run_a
                 :: [class_node "a.py" (Example.class_named "Dog" ["Animal"]);
                     function_node "b.py" Example.run_b;
                     class_node "b.py" (Example.class_named "Dog" [])])
    by reflexivity.
  assert (H2 : Forall (fun m => gn_name m <> "run")
                      [function_node "a.py" Example.main_a])
    by (repeat constructor; discriminate).
  assert (H3 : gn_name (function_node "a.py" Example.run_a) = "run")
    by reflexivity.
  repeat (split; [assumption|]).
  exact (find_callees_first_match _ "run" _ _ _ H1 H2 H3).
Defined.

Lemma find_callees_empty_witness :
  (nodes (build [Example.shape_class; Example.shape_function])
   = [] ++ class_node "shapes.py" (Example.class_named "Shape" ["Base"])
        :: [function_node "factory.py" (Example.function_named "Shape" ["draw"])])
  /\ find_callees (build [Example.shape_class; Example.shape_function]) "Shape"
     = []
  /\ Forall (fun m => gn_name m <> "area")
            (nodes (build [Example.shape_class; Example.shape_function]))
  /\ find_callees (build [Example.shape_class; Example.shape_function]) "area"
     = [].
Proof.
  assert (H1 : nodes (build [Example.shape_class; Example.shape_function])
               = [] ++ class_node "shapes.py"
                         (Example.class_named "Shape" ["Base"])
                    :: [function_node "factory.py"
                          (Example.function_named "Shape" ["draw"])])
    by reflexivity.
  assert (H2 : Forall (fun m => gn_name m <> "area")
                 (nodes (build [Example.shape_class; Example.shape_function])))
    by (repeat constructor; discriminate).
  split; [exact H1|]. split.
  - apply find_callees_empty. right.
    exists [Example.shape_class; Example.shape_function], [],
      [function_node "factory.py" (Example.function_named "Shape" ["draw"])],
      (class_node "shapes.py" (Example.class_named "Shape" ["Base"])).
    split; [reflexivity|]. split; [exact H1|]. split; [constructor|].
    split; reflexivity.
  - split; [exact H2|]. apply find_callees_empty. left. exact H2.
Defined.

Lemma unnamed_definition_extracted_witness :
  Forall (fun c => node_type c <> "identifier") (children Example.unnamed_def)
  /\ exists n,
       In n (nodes (add_file_analysis CodeContextGraph_init
                      {| a_functions :=
                           Some (functions
                                   (_extract_function Example.unnamed_def
                                      "def (): pass" PythonAnalyzer_init));
                         a_classes :=
                           Some (classes
                                   (_extract_class Example.unnamed_def
                                      "def (): pass" PythonAnalyzer_init));
                         a_imports := Some [];
                         a_file_path := Some "x.py" |}))
       /\ gn_type n = "function" /\ gn_name n = "" /\ gn_id n = "x.py::".
Proof.
  assert (H : Forall (fun c => node_type c <> "identifier")
                     (children Example.unnamed_def))
    by (repeat constructor; discriminate).
  split; [exact H|].
  exact (proj1 (proj2 (proj2
           (unnamed_definition_extracted Example.unnamed_def "def (): pass"
              PythonAnalyzer_init CodeContextGraph_init "x.py" H)))).
Defined.

Lemma parse_file_unsupported_witness :
  parse_file Example.runtime Example.python_only "README.md" = Return None
  /\ parse_file Example.runtime Example.python_only "web/app.jsx" = Return None.
Proof.
  split.
  - apply parse_file_unsupported. left. vm_compute. reflexivity.
  - apply parse_file_unsupported. right. exists "javascript".
    split; vm_compute; reflexivity.
Defined.

(** * Further properties of the graph *)

Lemma analysis_edge_sources a e :
  In e (analysis_edges a) ->
  (exists f, In f (default [] (a_functions a))
             /\ ge_from e = gn_id (function_node (analysis_path a) f)
             /\ ge_file e = analysis_path a
             /\ ge_type e = "calls" /\ In (ge_to e) (func_calls f))
  \/ (exists c, In c (default [] (a_classes a))
                /\ ge_from e = gn_id (class_node (analysis_path a) c)
                /\ ge_file e = analysis_path a
                /\ ge_type e = "inherits" /\ In (ge_to e) (cls_bases c)).
Proof.
  unfold analysis_edges. rewrite in_app_iff, !in_flat_map.
  intros [(f & Hf & He) | (c & Hc & He)]; [left; exists f | right; exists c];
    unfold function_edges, class_edges in He; apply in_map_iff in He;
    destruct He as (t & <- & Ht); simpl; auto.
Qed.

(** Every edge of a built graph starts at a node of that graph, made from
    the same file: a [calls] edge at a function node whose call list holds
    the target, an [inherits] edge at a class node whose bases hold it. *)
Theorem edges_start_at_nodes (analyses : list Analysis) (e : GraphEdge) :
  In e (edges (build analyses)) ->
  exists n,
    In n (nodes (build analyses))
    /\ gn_id n = ge_from e
    /\ gn_file n = ge_file e
    /\ ((ge_type e = "calls" /\ gn_type n = "function"
         /\ exists calls, gn_calls n = Some calls /\ In (ge_to e) calls)
        \/ (ge_type e = "inherits" /\ gn_type n = "class"
            /\ exists bases, gn_bases n = Some bases /\ In (ge_to e) bases)).
Proof.
  rewrite build_edges, build_nodes, in_flat_map. intros (a & Ha & He).
  destruct (analysis_edge_sources a e He)
    as [(f & Hf & Hfrom & Hfile & Hty & Hto) | (c & Hc & Hfrom & Hfile & Hty & Hto)].
  - exists (function_node (analysis_path a) f). split.
    { apply in_flat_map. exists a. split; [done|]. unfold analysis_nodes.
      rewrite in_app_iff. left. by apply in_map. }
    repeat split; [done | done |]. left. repeat split; [done|]. eauto.
  - exists (class_node (analysis_path a) c). split.
    { apply in_flat_map. exists a. split; [done|]. unfold analysis_nodes.
      rewrite in_app_iff. right. by apply in_map. }
    repeat split; [done | done |]. right. repeat split; [done|]. eauto.
Qed.

Lemma edges_start_at_nodes_witness :
  In (calls_edge "a.py" "a.py::run" "g")
     (edges (build [Example.file_a; Example.file_b]))
  /\ exists n,
       In n (nodes (build [Example.file_a; Example.file_b]))
       /\ gn_id n = "a.py::run" /\ gn_file n = "a.py".
Proof.
  assert (H : In (calls_edge "a.py" "a.py::run" "g")
                 (edges (build [Example.file_a; Example.file_b])))
    by (vm_compute; tauto).
  split; [exact H|].
  destruct (edges_start_at_nodes _ _ H) as (n & Hn & Hid & Hfile & _).
  exists n. auto.
Defined.

Lemma analysis_nodes_length a :
  length (analysis_nodes a) = analysis_node_count a.
Proof.
  unfold analysis_nodes, analysis_node_count.
  by rewrite length_app, !length_map.
Qed.

Lemma flat_map_map_length {A B : Type} (f : A -> list B) (l : list A) :
  length (flat_map f l) = list_sum (map (fun x => length (f x)) l).
Proof.
  induction l as [|x l IH]; simpl; [done|]. by rewrite length_app, IH.
Qed.

Lemma analysis_edges_length a :
  length (analysis_edges a) = analysis_edge_count a.
Proof.
  unfold analysis_edges, analysis_edge_count.
  rewrite length_app, !flat_map_map_length. f_equal.
  - f_equal. apply map_ext. intros f. unfold function_edges.
    by rewrite length_map.
  - f_equal. apply map_ext. intros c. unfold class_edges.
    by rewrite length_map.
Qed.

(** The node and edge totals of [get_statistics] are sums over the
    ingestions: one node per function and class record, one edge per
    recorded call and per base, repeated calls and repeated ingestions
    counted each time. *)
Theorem statistics_totals (analyses : list Analysis) :
  total_nodes (get_statistics (build analyses))
  = list_sum (map analysis_node_count analyses)
  /\ total_edges (get_statistics (build analyses))
     = list_sum (map analysis_edge_count analyses).
Proof.
  unfold get_statistics; simpl. rewrite build_nodes, build_edges.
  rewrite !flat_map_map_length. split; f_equal; apply map_ext; intros a.
  - apply analysis_nodes_length.
  - apply analysis_edges_length.
Qed.

(** ** The file index *)

Lemma ingest_all_file_map_dom l g :
  dom (file_map (fold_left add_file_analysis l g))
  = dom (file_map g) ∪ list_to_set (map analysis_path l).
Proof.
  revert g; induction l as [|a l IH]; intros g; simpl.
  - set_solver.
  - rewrite IH, add_file_analysis_file_map, dom_insert_L. set_solver.
Qed.

Lemma size_list_to_set_length (l : list string) :
  size (list_to_set l : gset string) <= length l.
Proof.
  induction l as [|x l IH].
  - by rewrite list_to_set_nil, size_empty.
  - rewrite list_to_set_cons. simpl.
    destruct (decide (x ∈ (list_to_set l : gset string))) as [Hx|Hx].
    + replace ({[x]} ∪ list_to_set l) with (list_to_set l : gset string)
        by set_solver. lia.
    + rewrite size_union by set_solver. rewrite size_singleton. lia.
Qed.

(** [files_analyzed] counts the distinct file paths ingested, not the
    ingestions: ingesting a path again does not raise it, and it never
    exceeds the number of [add_file_analysis] calls. *)
Theorem files_analyzed_distinct_paths (analyses : list Analysis) :
  files_analyzed (get_statistics (build analyses))
  = size (list_to_set (map analysis_path analyses) : gset string)
  /\ files_analyzed (get_statistics (build analyses)) <= length analyses.
Proof.
  assert (H : files_analyzed (get_statistics (build analyses))
              = size (list_to_set (map analysis_path analyses) : gset string)).
  { unfold get_statistics, build; simpl. rewrite <- size_dom.
    rewrite ingest_all_file_map_dom. simpl.
    rewrite dom_empty_L. f_equal. set_solver. }
  split; [exact H|]. rewrite H.
  etransitivity; [apply size_list_to_set_length | by rewrite length_map].
Qed.

Lemma ingest_all_file_map_other l g p :
  Forall (fun b => analysis_path b <> p) l ->
  file_map (fold_left add_file_analysis l g) !! p = file_map g !! p.
Proof.
  intros H; revert g; induction H as [|b l Hb _ IH]; intros g; simpl; [done|].
  rewrite IH, add_file_analysis_file_map. by rewrite lookup_insert_ne.
Qed.

(** The index entry of a path is the one written by the latest ingestion
    of that path: earlier entries for it are overwritten, while the nodes of
    the earlier ingestions stay in the graph. *)
Theorem file_index_latest (before after : list Analysis) (a : Analysis) :
  Forall (fun b => analysis_path b <> analysis_path a) after ->
  file_map (build (before ++ a :: after)) !! analysis_path a
  = Some (analysis_entry a).
Proof.
  intros H. unfold build. rewrite fold_left_app. simpl.
  rewrite ingest_all_file_map_other by exact H.
  rewrite add_file_analysis_file_map. apply lookup_insert_eq.
Qed.

Lemma file_index_latest_witness :
  Forall (fun b => analysis_path b <> analysis_path Example.file_a_again)
         [Example.file_b]
  /\ file_map (build ([Example.file_a] ++ Example.file_a_again
                        :: [Example.file_b])) !! "a.py"
     = Some {| fe_functions := ["start"]; fe_classes := [] |}.
Proof.
  assert (H : Forall (fun b => analysis_path b
                               <> analysis_path Example.file_a_again)
                     [Example.file_b])
    by (repeat constructor; discriminate).
  split; [exact H|].
  exact (file_index_latest [Example.file_a] [Example.file_b]
                           Example.file_a_again H).
Defined.

(** ** Analyses without content *)

(** For anything but parsed Python, [analyze] returns the empty dictionary;
    ingesting it adds no node and no edge, and still writes an index entry,
    without names, under the path ['unknown']. *)
Theorem unanalyzed_file_ingested (self : PythonAnalyzer)
    (parsed_data : option ParsedData) (g : CodeContextGraph) :
  parsed_data = None
  \/ (exists pd, parsed_data = Some pd /\ pd_language pd <> "python") ->
  let a := fst (analyze self parsed_data) in
  a = empty_analysis
  /\ snd (analyze self parsed_data) = self
  /\ nodes (add_file_analysis g a) = nodes g
  /\ edges (add_file_analysis g a) = edges g
  /\ file_map (add_file_analysis g a)
     = <[ "unknown" := {| fe_functions := []; fe_classes := [] |} ]> (file_map g).
Proof.
  intros H a.
  assert (Ha : analyze self parsed_data = (empty_analysis, self)).
  { destruct H as [-> | (pd & -> & Hl)]; [done|]. unfold analyze.
    destruct (String.eqb_spec (pd_language pd) "python"); [done|]. done. }
  unfold a. rewrite Ha. cbn [fst snd].
  rewrite add_file_analysis_nodes, add_file_analysis_edges,
    add_file_analysis_file_map.
  unfold analysis_nodes, analysis_edges; simpl.
  by rewrite !app_nil_r.
Qed.

Lemma unanalyzed_file_ingested_witness :
  (exists pd, Some Example.script_parsed = Some pd
              /\ pd_language pd <> "python")
  /\ files_analyzed
       (get_statistics
          (add_file_analysis CodeContextGraph_init
             (fst (analyze PythonAnalyzer_init (Some Example.script_parsed)))))
     = 1.
Proof.
  assert (H : exists pd, Some Example.script_parsed = Some pd
                         /\ pd_language pd <> "python")
    by (eexists; split; [reflexivity | discriminate]).
  split; [exact H|].
  destruct (unanalyzed_file_ingested PythonAnalyzer_init
              (Some Example.script_parsed) CodeContextGraph_init
              (or_intror H)) as (_ & _ & _ & _ & Hm).
  unfold get_statistics. cbn [files_analyzed]. rewrite Hm. reflexivity.
Defined.

(** ** Growth *)

Lemma find_callers_app g g' x (es : list GraphEdge) :
  edges g' = edges g ++ es ->
  find_callers g' x
  = find_callers g x
    ++ map ge_from (filter (fun e => ge_type e = "calls" /\ ge_to e = x) es).
Proof.
  intros H. rewrite !find_callers_filter, H, filter_app. apply map_app.
Qed.

(** The graph only grows: after any further ingestions the earlier nodes
    and edges are still there, unchanged and in their places at the front,
    and so are the callers found earlier for any name. *)
Theorem graph_append_only (g : CodeContextGraph) (later : list Analysis)
    (x : string) :
  let g' := fold_left add_file_analysis later g in
  nodes g `prefix_of` nodes g'
  /\ edges g `prefix_of` edges g'
  /\ find_callers g x `prefix_of` find_callers g' x.
Proof.
  intros g'. unfold g'. split; [|split].
  - rewrite ingest_all_nodes. by eexists.
  - rewrite ingest_all_edges. by eexists.
  - rewrite (find_callers_app g _ x _ (ingest_all_edges later g)).
    by eexists.
Qed.

(** ** Callers and callees *)

(** Whatever [find_callers x] returns is the id of a function node of the
    graph whose call list holds [x]: class nodes and [inherits] edges never
    show up among the callers. *)
Theorem find_callers_sound (analyses : list Analysis) (x caller : string) :
  In caller (find_callers (build analyses) x) ->
  exists n,
    In n (nodes (build analyses))
    /\ gn_id n = caller
    /\ gn_type n = "function"
    /\ exists calls, gn_calls n = Some calls /\ In x calls.
Proof.
  rewrite find_callers_filter, in_map_iff. intros (e & <- & He).
  apply list_elem_of_In, list_elem_of_filter in He as [[Hty <-] He].
  apply list_elem_of_In in He.
  rewrite build_edges, in_flat_map in He. destruct He as (a & Ha & He).
  destruct (analysis_edge_sources a e He)
    as [(f & Hf & Hfrom & _ & _ & Hto) | (c & _ & _ & _ & Hty' & _)];
    [|congruence].
  exists (function_node (analysis_path a) f). split.
  { rewrite build_nodes. apply in_flat_map. exists a. split; [done|].
    unfold analysis_nodes. rewrite in_app_iff. left. by apply in_map. }
  repeat split; [done|]. eauto.
Qed.

Lemma find_callers_sound_witness :
  In "a.py::main" (find_callers (build [Example.file_a; Example.file_b]) "run")
  /\ exists n,
       In n (nodes (build [Example.file_a; Example.file_b]))
       /\ gn_id n = "a.py::main" /\ gn_type n = "function".
Proof.
  assert (H : In "a.py::main"
                 (find_callers (build [Example.file_a; Example.file_b]) "run"))
    by (vm_compute; tauto).
  split; [exact H|].
  destruct (find_callers_sound _ _ _ H) as (n & Hn & Hid & Hty & _).
  exists n. auto.
Defined.

Lemma find_callees_loop_agree x (C : list string) (ns : list GraphNode) :
  (forall n, In n ns -> gn_name n = x -> default [] (gn_calls n) = C) ->
  (exists n, In n ns /\ gn_name n = x) ->
  find_callees_loop x ns [] = C.
Proof.
  induction ns as [|m ns IH]; intros Hall (n & Hn & Hx); [done|]. simpl.
  destruct (String.eqb_spec (gn_name m) x) as [Hm|Hm].
  - apply Hall; [by left | done].
  - apply IH.
    + intros k Hk. apply Hall. by right.
    + destruct Hn as [-> | Hn]; [done | eauto].
Qed.

(** Callees read back what was ingested: for a function whose name is the
    name of no class and of no function with another call list, anywhere in
    the ingested analyses, [find_callees] of that name is its call list. *)
Theorem find_callees_ingested (analyses : list Analysis) (a : Analysis)
    (f : FunctionEntity) :
  In a analyses ->
  In f (default [] (a_functions a)) ->
  (forall b g, In b analyses -> In g (default [] (a_functions b)) ->
               func_name g = func_name f -> func_calls g = func_calls f) ->
  (forall b c, In b analyses -> In c (default [] (a_classes b)) ->
               cls_name c <> func_name f) ->
  find_callees (build analyses) (func_name f) = func_calls f.
Proof.
  intros Ha Hf Hfun Hcls. unfold find_callees. rewrite build_nodes.
  apply find_callees_loop_agree.
  - intros n Hn Hname. apply in_flat_map in Hn as (b & Hb & Hn).
    unfold analysis_nodes in Hn. rewrite in_app_iff, !in_map_iff in Hn.
    destruct Hn as [(g & <- & Hg) | (c & <- & Hc)]; simpl in *.
    + by apply (Hfun b g).
    + by destruct (Hcls b c Hb Hc).
  - exists (function_node (analysis_path a) f). split; [|done].
    apply in_flat_map. exists a. split; [done|]. unfold analysis_nodes.
    rewrite in_app_iff. left. by apply in_map.
Qed.

Lemma find_callees_ingested_witness :
  In Example.file_a [Example.file_a; Example.file_b]
  /\ In Example.main_a (default [] (a_functions Example.file_a))
  /\ find_callees (build [Example.file_a; Example.file_b]) "main" = ["run"].
Proof.
  assert (H1 : In Example.file_a [Example.file_a; Example.file_b])
    by (simpl; tauto).
  assert (H2 : In Example.main_a (default [] (a_functions Example.file_a)))
    by (simpl; tauto).
  split; [exact H1|]. split; [exact H2|].
  apply (find_callees_ingested _ _ Example.main_a H1 H2).
  - intros b g Hb Hg. simpl in Hb. destruct Hb as [<- | [<- | []]];
      simpl in Hg;
      repeat (destruct Hg as [<- | Hg];
              [intros Hn; first [reflexivity | discriminate Hn] |]);
      destruct Hg.
  - intros b c Hb Hc. simpl in Hb. destruct Hb as [<- | [<- | []]];
      simpl in Hc;
      repeat (destruct Hc as [<- | Hc]; [discriminate |]);
      destruct Hc.
Defined.

(** * Further properties of extraction *)

Lemma traverse_node_unfold n code self :
  _traverse_node n code self
  = fold_left (fun self child => _traverse_node child code self) (children n)
      (if has_type "function_definition" n then _extract_function n code self
       else if has_type "class_definition" n then _extract_class n code self
       else if has_type "import_statement" n
               || has_type "import_from_statement" n
            then _extract_import n code self
       else self).
Proof. destruct n; reflexivity. Qed.

Lemma traverse_node_step_functions n code self :
  functions
    (if has_type "function_definition" n then _extract_function n code self
     else if has_type "class_definition" n then _extract_class n code self
     else if has_type "import_statement" n
             || has_type "import_from_statement" n
          then _extract_import n code self
     else self)
  = functions self ++ own_functions code n.
Proof.
  unfold own_functions.
  destruct (has_type "function_definition" n); [reflexivity|].
  destruct (has_type "class_definition" n); [by rewrite app_nil_r|].
  destruct (_ || _); by rewrite app_nil_r.
Qed.

Lemma traverse_node_step_classes n code self :
  classes
    (if has_type "function_definition" n then _extract_function n code self
     else if has_type "class_definition" n then _extract_class n code self
     else if has_type "import_statement" n
             || has_type "import_from_statement" n
          then _extract_import n code self
     else self)
  = classes self ++ own_classes code n.
Proof.
  unfold own_classes.
  destruct (has_type "function_definition" n); [by rewrite app_nil_r|].
  destruct (has_type "class_definition" n); [reflexivity|].
  destruct (_ || _); by rewrite app_nil_r.
Qed.

(** The records found in a tree do not depend on what the analyzer held
    before: they are appended to it. *)
Lemma traverse_node_functions_acc code n :
  forall self,
    functions (_traverse_node n code self)
    = functions self ++ functions (_traverse_node n code PythonAnalyzer_init).
Proof.
  induction n as [n IH] using Node_children_ind.
  assert (Hfold : forall self,
    functions (fold_left (fun self child => _traverse_node child code self)
                         (children n) self)
    = functions self
      ++ flat_map (fun c => functions (_traverse_node c code PythonAnalyzer_init))
                  (children n)).
  { induction IH as [|c cs Hc _ IHcs]; intros self; simpl.
    - by rewrite app_nil_r.
    - rewrite IHcs, Hc. by rewrite <- app_assoc. }
  intros self. rewrite !traverse_node_unfold, !Hfold.
  rewrite !traverse_node_step_functions. simpl. by rewrite <- app_assoc.
Qed.

Lemma traverse_node_classes_acc code n :
  forall self,
    classes (_traverse_node n code self)
    = classes self ++ classes (_traverse_node n code PythonAnalyzer_init).
Proof.
  induction n as [n IH] using Node_children_ind.
  assert (Hfold : forall self,
    classes (fold_left (fun self child => _traverse_node child code self)
                       (children n) self)
    = classes self
      ++ flat_map (fun c => classes (_traverse_node c code PythonAnalyzer_init))
                  (children n)).
  { induction IH as [|c cs Hc _ IHcs]; intros self; simpl.
    - by rewrite app_nil_r.
    - rewrite IHcs, Hc. by rewrite <- app_assoc. }
  intros self. rewrite !traverse_node_unfold, !Hfold.
  rewrite !traverse_node_step_classes. simpl. by rewrite <- app_assoc.
Qed.

Lemma fold_traverse_functions code (cs : list Node) self :
  functions (fold_left (fun self child => _traverse_node child code self) cs self)
  = functions self
    ++ flat_map (fun c => functions (_traverse_node c code PythonAnalyzer_init)) cs.
Proof.
  revert self; induction cs as [|c cs IH]; intros self; simpl.
  - by rewrite app_nil_r.
  - rewrite IH, traverse_node_functions_acc. by rewrite <- app_assoc.
Qed.

Lemma fold_traverse_classes code (cs : list Node) self :
  classes (fold_left (fun self child => _traverse_node child code self) cs self)
  = classes self
    ++ flat_map (fun c => classes (_traverse_node c code PythonAnalyzer_init)) cs.
Proof.
  revert self; induction cs as [|c cs IH]; intros self; simpl.
  - by rewrite app_nil_r.
  - rewrite IH, traverse_node_classes_acc. by rewrite <- app_assoc.
Qed.

(** The function records of a tree: the record of the root, if it is a
    function definition, then those of each child's tree, in order. *)
Lemma traverse_node_functions n code :
  functions (_traverse_node n code PythonAnalyzer_init)
  = own_functions code n
    ++ flat_map (fun c => functions (_traverse_node c code PythonAnalyzer_init))
                (children n).
Proof.
  rewrite traverse_node_unfold, fold_traverse_functions.
  by rewrite traverse_node_step_functions.
Qed.

Lemma traverse_node_classes n code :
  classes (_traverse_node n code PythonAnalyzer_init)
  = own_classes code n
    ++ flat_map (fun c => classes (_traverse_node c code PythonAnalyzer_init))
                (children n).
Proof.
  rewrite traverse_node_unfold, fold_traverse_classes.
  by rewrite traverse_node_step_classes.
Qed.

Lemma list_sum_flat_map_length {A B : Type} (f : A -> list B) (g : A -> nat)
    (l : list A) :
  Forall (fun x => length (f x) = g x) l ->
  length (flat_map f l) = list_sum (map g l).
Proof.
  induction 1 as [|x l Hx _ IH]; simpl; [done|].
  by rewrite length_app, Hx, IH.
Qed.

Lemma traverse_node_step_imports n code self :
  imports
    (if has_type "function_definition" n then _extract_function n code self
     else if has_type "class_definition" n then _extract_class n code self
     else if has_type "import_statement" n
             || has_type "import_from_statement" n
          then _extract_import n code self
     else self)
  = imports self ++ own_imports code n.
Proof.
  unfold own_imports.
  destruct (has_type "function_definition" n); [by rewrite app_nil_r|].
  destruct (has_type "class_definition" n); [by rewrite app_nil_r|].
  destruct (_ || _); [reflexivity | by rewrite app_nil_r].
Qed.

Lemma traverse_node_imports_acc code n :
  forall self,
    imports (_traverse_node n code self)
    = imports self ++ imports (_traverse_node n code PythonAnalyzer_init).
Proof.
  induction n as [n IH] using Node_children_ind.
  assert (Hfold : forall self,
    imports (fold_left (fun self child => _traverse_node child code self)
                       (children n) self)
    = imports self
      ++ flat_map (fun c => imports (_traverse_node c code PythonAnalyzer_init))
                  (children n)).
  { induction IH as [|c cs Hc _ IHcs]; intros self; simpl.
    - by rewrite app_nil_r.
    - rewrite IHcs, Hc. by rewrite <- app_assoc. }
  intros self. rewrite !traverse_node_unfold, !Hfold.
  rewrite !traverse_node_step_imports. simpl. by rewrite <- app_assoc.
Qed.

Lemma fold_traverse_imports code (cs : list Node) self :
  imports (fold_left (fun self child => _traverse_node child code self) cs self)
  = imports self
    ++ flat_map (fun c => imports (_traverse_node c code PythonAnalyzer_init)) cs.
Proof.
  revert self; induction cs as [|c cs IH]; intros self; simpl.
  - by rewrite app_nil_r.
  - rewrite IH, traverse_node_imports_acc. by rewrite <- app_assoc.
Qed.

Lemma traverse_node_imports n code :
  imports (_traverse_node n code PythonAnalyzer_init)
  = own_imports code n
    ++ flat_map (fun c => imports (_traverse_node c code PythonAnalyzer_init))
                (children n).
Proof.
  rewrite traverse_node_unfold, fold_traverse_imports.
  by rewrite traverse_node_step_imports.
Qed.

(** One function record per function-definition node, one class record per
    class-definition node and one import record per import node of either
    kind, at whatever depth: a method is also recorded as a function, a
    nested class as a class, an import inside a function as an import. *)
Theorem records_per_definition (root : Node) (code : string) :
  length (functions (_traverse_node root code PythonAnalyzer_init))
  = count_type "function_definition" root
  /\ length (classes (_traverse_node root code PythonAnalyzer_init))
     = count_type "class_definition" root
  /\ length (imports (_traverse_node root code PythonAnalyzer_init))
     = count_type "import_statement" root
       + count_type "import_from_statement" root.
Proof.
  induction root as [n IH] using Node_children_ind. split; [|split].
  - rewrite traverse_node_functions, length_app.
    rewrite (list_sum_flat_map_length _ (count_type "function_definition")).
    + destruct n as [ty sb eb sp ep cs]; simpl. unfold own_functions; simpl.
      by destruct (has_type _ _).
    + eapply Forall_impl; [exact IH|]. by intros c [H _].
  - rewrite traverse_node_classes, length_app.
    rewrite (list_sum_flat_map_length _ (count_type "class_definition")).
    + destruct n as [ty sb eb sp ep cs]; simpl. unfold own_classes, has_type; simpl.
      destruct (String.eqb_spec ty "function_definition") as [->|]; [done|].
      by destruct (String.eqb ty "class_definition").
    + eapply Forall_impl; [exact IH|]. by intros c (_ & H & _).
  - rewrite traverse_node_imports, length_app.
    rewrite (list_sum_flat_map_length _
               (fun c => count_type "import_statement" c
                         + count_type "import_from_statement" c)).
    + destruct n as [ty sb eb sp ep cs]; simpl.
      unfold own_imports, has_type; simpl.
      assert (Hsum : list_sum (map (fun c => count_type "import_statement" c
                                   + count_type "import_from_statement" c) cs)
                     = list_sum (map (count_type "import_statement") cs)
                       + list_sum (map (count_type "import_from_statement") cs)).
      { clear. induction cs as [|c cs IHcs]; simpl; lia. }
      rewrite Hsum.
      destruct (String.eqb_spec ty "function_definition") as [->|]; [simpl; lia|].
      destruct (String.eqb_spec ty "class_definition") as [->|]; [simpl; lia|].
      destruct (String.eqb_spec ty "import_statement") as [->|]; [simpl; lia|].
      destruct (String.eqb_spec ty "import_from_statement"); simpl; lia.
    + eapply Forall_impl; [exact IH|]. by intros c (_ & _ & H).
Qed.

Lemma functions_of_descendant code n d :
  descendant n d ->
  forall f, In f (functions (_traverse_node d code PythonAnalyzer_init)) ->
            In f (functions (_traverse_node n code PythonAnalyzer_init)).
Proof.
  induction 1 as [n | n c d Hc _ IH]; intros f Hf; [done|].
  rewrite traverse_node_functions, in_app_iff. right.
  apply in_flat_map. exists c. split; [done | by apply IH].
Qed.

Lemma function_definition_recorded code n d :
  descendant n d -> has_type "function_definition" d = true ->
  In (function_record code d)
     (functions (_traverse_node n code PythonAnalyzer_init)).
Proof.
  intros Hd Hty. apply (functions_of_descendant code n d Hd).
  rewrite traverse_node_functions, in_app_iff. left.
  unfold own_functions. rewrite Hty. by left.
Qed.

Lemma class_record_origin code n :
  forall c, In c (classes (_traverse_node n code PythonAnalyzer_init)) ->
  exists d, descendant n d /\ c = class_record code d.
Proof.
  induction n as [n IH] using Node_children_ind. intros c.
  rewrite traverse_node_classes, in_app_iff. intros [Hc | Hc].
  - exists n. split; [constructor|]. unfold own_classes in Hc.
    destruct (has_type "function_definition" n); [done|].
    destruct (has_type "class_definition" n); [|done].
    by destruct Hc as [<- | []].
  - apply in_flat_map in Hc as (k & Hk & Hc).
    rewrite List.Forall_forall in IH.
    destruct (IH k Hk c Hc) as (d & Hd & ->).
    exists d. split; [|done]. by eapply descendant_child.
Qed.

(** Every method of every class record is also among the function records
    of the same analysis, under the same name and line: methods are counted
    as functions too, and become function nodes of the graph. *)
Theorem methods_recorded_as_functions (root : Node) (code : string)
    (c : ClassEntity) (m : MethodRecord) :
  In c (classes (_traverse_node root code PythonAnalyzer_init)) ->
  In m (cls_methods c) ->
  exists f,
    In f (functions (_traverse_node root code PythonAnalyzer_init))
    /\ func_name f = meth_name m
    /\ func_line_start f = meth_line m.
Proof.
  intros Hc Hm.
  destruct (class_record_origin code root c Hc) as (d & Hd & ->).
  simpl in Hm. rewrite extract_methods_blocks in Hm.
  apply in_flat_map in Hm as (blk & Hblk & Hm).
  apply in_map_iff in Hm as (stmt & <- & Hstmt).
  apply list_elem_of_In, list_elem_of_filter in Hblk as [_ Hblk].
  apply list_elem_of_In, list_elem_of_filter in Hstmt as [Hty Hstmt].
  apply list_elem_of_In in Hblk, Hstmt.
  exists (function_record code stmt). split; [|done].
  apply function_definition_recorded.
  - clear Hc. induction Hd as [n | n k d Hk _ IH].
    + eapply descendant_child; [exact Hblk|].
      eapply descendant_child; [exact Hstmt | constructor].
    + eapply descendant_child; [exact Hk | by apply IH].
  - unfold has_type. rewrite Hty. apply String.eqb_refl.
Qed.

Lemma methods_recorded_as_functions_witness :
  In (class_record Scenario.dog_code Scenario.dog_def)
     (classes (_traverse_node Scenario.dog_module Scenario.dog_code
                              PythonAnalyzer_init))
  /\ In {| meth_name := "bark"; meth_line := 2 |}
        (cls_methods (class_record Scenario.dog_code Scenario.dog_def))
  /\ exists f,
       In f (functions (_traverse_node Scenario.dog_module Scenario.dog_code
                                       PythonAnalyzer_init))
       /\ func_name f = "bark" /\ func_line_start f = 2.
Proof.
  assert (H1 : In (class_record Scenario.dog_code Scenario.dog_def)
                  (classes (_traverse_node Scenario.dog_module
                              Scenario.dog_code PythonAnalyzer_init)))
    by (left; reflexivity).
  assert (H2 : In {| meth_name := "bark"; meth_line := 2 |}
                  (cls_methods (class_record Scenario.dog_code Scenario.dog_def)))
    by (left; reflexivity).
  split; [exact H1|]. split; [exact H2|].
  exact (methods_recorded_as_functions _ _ _ _ H1 H2).
Defined.



Lemma identifier_texts_loop code (cs : list Node) (acc : list string) :
  fold_left
    (fun params child =>
       if has_type "identifier" child then params ++ [node_text code child]
       else params)
    cs acc
  = acc ++ map (node_text code)
             (filter (fun c => node_type c = "identifier") cs).
Proof.
  revert acc; induction cs as [|c cs IH]; intros acc; simpl.
  - by rewrite app_nil_r.
  - rewrite IH. unfold has_type.
    destruct (String.eqb_spec (node_type c) "identifier").
    + rewrite filter_cons_True by done. simpl. by rewrite <- app_assoc.
    + by rewrite filter_cons_False by done.
Qed.

(** Parameters and bases are the texts of the children tagged [identifier],
    in order: a child of any other tag (a parameter with a default or an
    annotation, a starred parameter, a dotted or keyword base) is left out,
    so there are never more names than children. *)
Theorem params_and_bases_identifiers (n : Node) (code : string) :
  _extract_params n code
  = map (node_text code) (filter (fun c => node_type c = "identifier") (children n))
  /\ _extract_bases n code
     = map (node_text code)
           (filter (fun c => node_type c = "identifier") (children n))
  /\ length (_extract_params n code) <= length (children n).
Proof.
  assert (H : _extract_params n code
              = map (node_text code)
                    (filter (fun c => node_type c = "identifier") (children n)))
    by apply identifier_texts_loop.
  split; [exact H|]. split; [apply identifier_texts_loop|].
  rewrite H, length_map. apply length_filter.
Qed.

(** * Further properties of parsing *)

Lemma ext_map_languages ext language :
  ext_map !! ext = Some language ->
  language = "python" \/ language = "javascript".
Proof.
  unfold ext_map. intros H. apply elem_of_list_to_map_2 in H.
  repeat (apply elem_of_cons in H as [H | H];
          [injection H as _ ->; by auto|]).
  by apply elem_of_nil in H.
Qed.

(** When [parse_file] does return parsed data, the data names the file it
    was asked for; its language is ['python'] or ['javascript'], the one
    detected from the extension and for which a parser is registered; its
    code is the text read from the file, and its root node is what that
    parser made of this text. *)
Theorem parse_file_success (rt : Runtime) (self : CodeParser)
    (file_path : string) (pd : ParsedData) :
  parse_file rt self file_path = Return (Some pd) ->
  pd_file_path pd = file_path
  /\ (pd_language pd = "python" \/ pd_language pd = "javascript")
  /\ detect_language rt file_path = Some (pd_language pd)
  /\ exists parser : string -> outcome Node,
       parsers self !! pd_language pd = Some parser
       /\ read_text rt file_path = Return (pd_code pd)
       /\ parser (pd_code pd) = Return (pd_root_node pd).
Proof.
  unfold parse_file.
  destruct (detect_language rt file_path) as [language|] eqn:Hl; [|done].
  destruct (String.eqb language ""); [done|].
  match goal with
  | |- context [match ?o with Some _ => _ | None => _ end] =>
      destruct o as [parser|] eqn:Hp; [|done]
  end.
  destruct (read_text rt file_path) as [code|] eqn:Hr; [|done].
  destruct (parser code) as [root|] eqn:Hparse; [|done].
  intros [= <-]. simpl. repeat split; [|eauto].
  apply (ext_map_languages _ _ Hl).
Qed.

Lemma parse_file_success_witness :
  parse_file Example.runtime Example.python_only "src/dog.py"
  = Return (Some Scenario.dog_parsed_at)
  /\ pd_language Scenario.dog_parsed_at = "python"
  /\ read_text Example.runtime "src/dog.py"
     = Return (pd_code Scenario.dog_parsed_at).
Proof.
  assert (H : parse_file Example.runtime Example.python_only "src/dog.py"
              = Return (Some Scenario.dog_parsed_at))
    by (vm_compute; reflexivity).
  split; [exact H|].
  destruct (parse_file_success _ _ _ _ H)
    as (_ & _ & _ & parser & _ & Hr & _).
  split; [reflexivity | exact Hr].
Defined.

(** * Properties of the repository utilities *)

(** ** Lengths and counts of strings *)

Lemma length_append (s t : string) :
  String.length (s +:+ t) = String.length s + String.length t.
Proof.
  induction s as [|c s IH]; rewrite ?append_empty, ?append_String; simpl;
    [done | by rewrite IH].
Qed.

Lemma count_append c (s t : string) :
  PyStr.count c (s +:+ t) = PyStr.count c s + PyStr.count c t.
Proof.
  induction s as [|d s IH]; rewrite ?append_empty, ?append_String; simpl;
    [done | rewrite IH; lia].
Qed.

Lemma length_substring (m n : nat) (s : string) :
  String.length (String.substring m n s) <= n.
Proof.
  revert m n; induction s as [|c s IH]; intros [|m] [|n]; simpl;
    try lia.
  - specialize (IH 0 n). lia.
  - apply IH.
  - apply IH.
Qed.

Lemma count_substring c (m n : nat) (s : string) :
  PyStr.count c (String.substring m n s) <= PyStr.count c s.
Proof.
  revert m n; induction s as [|d s IH]; intros [|m] [|n]; simpl;
    try lia.
  - specialize (IH 0 n). lia.
  - specialize (IH m 0). lia.
  - specialize (IH m (S n)). lia.
Qed.

Lemma lstrip_bounds c (s : string) :
  String.length (PyStr.lstrip s) <= String.length s
  /\ PyStr.count c (PyStr.lstrip s) <= PyStr.count c s.
Proof.
  induction s as [|d s [IH1 IH2]]; simpl; [lia|].
  destruct (PyStr.isspace d); simpl; lia.
Qed.

Lemma rstrip_bounds c (s : string) :
  String.length (PyStr.rstrip s) <= String.length s
  /\ PyStr.count c (PyStr.rstrip s) <= PyStr.count c s.
Proof.
  induction s as [|d s [IH1 IH2]]; simpl; [lia|].
  destruct (PyStr.rstrip s) as [|e r].
  - destruct (PyStr.isspace d); simpl in *; lia.
  - simpl in *. lia.
Qed.

Lemma strip_bounds c (s : string) :
  String.length (PyStr.strip s) <= String.length s
  /\ PyStr.count c (PyStr.strip s) <= PyStr.count c s.
Proof.
  unfold PyStr.strip.
  destruct (rstrip_bounds c (PyStr.lstrip s)), (lstrip_bounds c s). lia.
Qed.

Lemma split_pieces sep (s : string) :
  PyStr.split sep s <> []
  /\ Forall (fun piece => PyStr.count sep piece = 0) (PyStr.split sep s).
Proof.
  induction s as [|c s [IH1 IH2]]; simpl.
  - split; [done | by repeat constructor].
  - destruct (Ascii.eqb_spec c sep) as [->|Hc].
    + split; [done | by constructor].
    + destruct (PyStr.split sep s) as [|piece pieces]; [done|].
      split; [done|]. inversion IH2 as [|? ? Hp Hps]; subst.
      constructor; [|done]. simpl.
      destruct (Ascii.eqb_spec c sep); [done | by rewrite Hp].
Qed.

Lemma summary_loop_lines (P : string -> Prop) max_length
    (lines summary_lines : list string) char_count :
  Forall P lines -> Forall P summary_lines ->
  Forall P (summary_loop max_length lines summary_lines char_count).
Proof.
  intros Hl; revert summary_lines char_count.
  induction Hl as [|line rest Hline _ IH]; intros acc n Hacc; simpl; [done|].
  destruct (PyStr.startswith "#" line); [by apply IH|].
  destruct (_ && _); [by apply IH|].
  assert (Forall P (acc ++ [line])) by (apply Forall_app; auto).
  destruct (_ <=? _)%nat; [done | by apply IH].
Qed.

Lemma join_count c (l : list string) :
  Forall (fun piece => PyStr.count c piece = 0) l ->
  PyStr.count c (PyStr.join (String c "") l) = length l - 1.
Proof.
  unfold PyStr.join.
  induction 1 as [|x l Hx Hl IH]; simpl; [done|].
  destruct l as [|y l]; [by rewrite Hx|].
  change (String.concat (String c "") (y :: l))
    with (PyStr.join (String c "") (y :: l)) in *.
  unfold PyStr.join in *.
  rewrite !count_append, IH, Hx. simpl.
  destruct (Ascii.eqb_spec c c); [lia | done].
Qed.




(** ** Important files *)

Lemma FileNode_children_ind (P : FileNode -> Prop) :
  (forall n, (forall cs, fn_children n = Some cs -> Forall P cs) -> P n) ->
  forall n, P n.
Proof.
  intros H. fix IH 1. intros n. apply H.
  destruct n as [name ty path ext [cs|]]; simpl; intros cs' Hcs; [|done].
  injection Hcs as <-.
  induction cs as [|c cs IHcs]; constructor; [apply IH | exact IHcs].
Qed.

Lemma find_files_unfold node patterns result :
  _find_files node patterns result
  = fold_left (fun result child => _find_files child patterns result)
      (default [] (fn_children node))
      (if String.eqb (fn_type node) "file"
          && bool_decide (fn_name node ∈ patterns)
       then result ++ [fn_path node] else result).
Proof. destruct node as [name ty path ext [cs|]]; reflexivity. Qed.

Lemma find_files_acc patterns node :
  forall result,
    _find_files node patterns result
    = result ++ _find_files node patterns [].
Proof.
  induction node as [n IH] using FileNode_children_ind.
  assert (Hfold : forall result,
    fold_left (fun result child => _find_files child patterns result)
      (default [] (fn_children n)) result
    = result ++ flat_map (fun c => _find_files c patterns [])
                         (default [] (fn_children n))).
  { destruct (fn_children n) as [cs|]; simpl;
      [|intros; by rewrite app_nil_r].
    specialize (IH cs eq_refl).
    induction IH as [|c cs Hc _ IHcs]; intros result; simpl.
    - by rewrite app_nil_r.
    - rewrite IHcs, Hc. by rewrite <- app_assoc. }
  intros result. rewrite !find_files_unfold, !Hfold.
  destruct (_ && _); simpl; by rewrite <- ?app_assoc.
Qed.

Lemma find_files_fold patterns (cs : list FileNode) (acc : list string) :
  fold_left (fun result child => _find_files child patterns result) cs acc
  = acc ++ flat_map (fun c => _find_files c patterns []) cs.
Proof.
  revert acc; induction cs as [|c cs IH]; intros acc; simpl.
  - by rewrite app_nil_r.
  - rewrite IH, find_files_acc. by rewrite <- app_assoc.
Qed.

Lemma find_files_children patterns node :
  _find_files node patterns []
  = (if String.eqb (fn_type node) "file"
        && bool_decide (fn_name node ∈ patterns)
     then [fn_path node] else [])
    ++ flat_map (fun c => _find_files c patterns [])
                (default [] (fn_children node)).
Proof.
  rewrite find_files_unfold, find_files_fold. f_equal.
Qed.

(** [get_important_files] returns the paths of exactly the nodes of the
    tree, at any depth, that are files and carry one of the ten important
    names: a directory of such a name is not returned, and no other path
    is. *)
Theorem important_files_exact (tree : FileNode) (p : string) :
  exists l,
    get_important_files (Some tree) = Return l
    /\ (In p l <->
        exists d, file_descendant tree d
                  /\ fn_type d = "file"
                  /\ fn_name d ∈ important_patterns
                  /\ fn_path d = p).
Proof.
  eexists. split; [reflexivity|].
  generalize important_patterns. intros patterns. split.
  - revert p. induction tree as [n IH] using FileNode_children_ind.
    intros p. rewrite find_files_children, in_app_iff. intros [Hp | Hp].
    + exists n. split; [constructor|].
      destruct (String.eqb_spec (fn_type n) "file") as [Hty|]; [|done].
      destruct (bool_decide_reflect (fn_name n ∈ patterns)); [|done].
      simpl in Hp. destruct Hp as [<- | []]. done.
    + apply in_flat_map in Hp as (c & Hc & Hp).
      destruct (fn_children n) as [cs|] eqn:Hcs; [|done]. simpl in Hc.
      specialize (IH cs eq_refl). rewrite List.Forall_forall in IH.
      destruct (IH c Hc p Hp) as (d & Hd & Hrest).
      exists d. split; [|done]. by eapply file_descendant_child.
  - intros (d & Hd & Hty & Hname & <-).
    induction Hd as [n | n cs c d Hcs Hc _ IH].
    + rewrite find_files_children, in_app_iff. left.
      rewrite Hty. simpl. rewrite bool_decide_eq_true_2 by done. by left.
    + rewrite find_files_children, in_app_iff. right.
      apply in_flat_map. exists c. rewrite Hcs. simpl. split; [done|].
      by apply IH.
Qed.

(** ** The rendered tree *)

Lemma join_empty_count c (l : list string) :
  PyStr.count c (PyStr.join "" l) = list_sum (map (PyStr.count c) l).
Proof.
  unfold PyStr.join. induction l as [|x l IH]; simpl; [done|].
  destruct l as [|y l]; [simpl; lia|].
  rewrite !count_append, IH. simpl. lia.
Qed.

Lemma uint_string_count_nl (d : Decimal.uint) :
  PyStr.count (ascii_of_nat 10) (DecimalString.NilEmpty.string_of_uint d) = 0.
Proof. induction d; simpl; done. Qed.

Lemma format_children_count (format : FileNode -> bool -> string) total
    (cs : list FileNode) :
  Forall (fun c => forall is_last,
            PyStr.count (ascii_of_nat 10) (format c is_last) = shown_entries c)
         cs ->
  forall i,
    list_sum (map (PyStr.count (ascii_of_nat 10))
                  (format_children format total cs i))
    = shown_children shown_entries cs i.
Proof.
  induction 1 as [|c cs Hc _ IH]; intros i; simpl; [done|].
  destruct (i <? 20)%nat; [|done]. simpl. by rewrite Hc, IH.
Qed.

Lemma format_node_unfold node prefix is_last :
  format_node node prefix is_last
  = let line := prefix +:+ (if is_last then "└── " else "├── ")
                +:+ fn_name node +:+ PyStr.nl in
    let new_prefix := prefix +:+ (if is_last then "    " else "│   ") in
    PyStr.join ""
      match fn_children node with
      | Some ((_ :: _) as children) =>
          [line]
          ++ format_children (fun child is_last_child =>
                                format_node child new_prefix is_last_child)
                             (length children) children 0
          ++ (if (20 <? length children)%nat
              then [ new_prefix +:+ "└── ... ("
                     +:+ PyStr.of_nat (length children - 20)
                     +:+ " more items)" +:+ PyStr.nl ]
              else [])
      | _ => [line]
      end.
Proof. destruct node; reflexivity. Qed.

Lemma shown_entries_unfold node :
  shown_entries node
  = match fn_children node with
    | Some children =>
        1 + shown_children shown_entries children 0
        + (if (20 <? length children)%nat then 1 else 0)
    | None => 1
    end.
Proof. destruct node; reflexivity. Qed.

Lemma format_node_lines node :
  (forall d, file_descendant node d ->
             PyStr.count (ascii_of_nat 10) (fn_name d) = 0) ->
  forall prefix is_last,
    PyStr.count (ascii_of_nat 10) prefix = 0 ->
    PyStr.count (ascii_of_nat 10) (format_node node prefix is_last)
    = shown_entries node.
Proof.
  induction node as [n IH] using FileNode_children_ind.
  intros Hnames prefix is_last Hprefix.
  rewrite format_node_unfold, shown_entries_unfold. cbv zeta.
  rewrite join_empty_count.
  set (line := prefix +:+ (if is_last then "└── " else "├── ")
               +:+ fn_name n +:+ PyStr.nl).
  set (new_prefix := prefix +:+ (if is_last then "    " else "│   ")).
  assert (Hline : PyStr.count (ascii_of_nat 10) line = 1).
  { unfold line. rewrite !count_append, Hprefix, (Hnames n) by constructor.
    by destruct is_last. }
  assert (Hnew : PyStr.count (ascii_of_nat 10) new_prefix = 0).
  { unfold new_prefix. rewrite count_append, Hprefix. by destruct is_last. }
  destruct (fn_children n) as [cs|] eqn:Hcs; [|simpl; lia].
  destruct cs as [|c0 cs0]; [simpl; lia|].
  set (cs := c0 :: cs0) in *.
  rewrite !map_app, !list_sum_app. cbn [map list_sum]. rewrite Hline.
  rewrite (format_children_count _ _ cs).
  - assert (Hmore : list_sum
              (map (PyStr.count (ascii_of_nat 10))
                 (if (20 <? length cs)%nat
                  then [ new_prefix +:+ "└── ... ("
                         +:+ PyStr.of_nat (length cs - 20)
                         +:+ " more items)" +:+ PyStr.nl ]
                  else []))
              = (if (20 <? length cs)%nat then 1 else 0)).
    { destruct (20 <? length cs)%nat; [|done]. cbn [map list_sum].
      rewrite !count_append, Hnew. unfold PyStr.of_nat.
      by rewrite uint_string_count_nl. }
    rewrite Hmore. simpl list_sum. lia.
  - specialize (IH cs eq_refl).
    rewrite List.Forall_forall in IH. apply List.Forall_forall.
    intros c Hc is_last_child. apply IH; [exact Hc | | exact Hnew].
    intros d Hd. apply Hnames.
    by eapply (file_descendant_child _ cs c d).
Qed.

(** The rendered tree has one line per entry shown: each node, at most the
    first twenty children of each directory, and one more line for a
    directory with children left out.  (Names and prefix are taken to hold
    no line break.) *)
Theorem format_tree_lines (node : FileNode) (prefix : string) (is_last : bool) :
  PyStr.count (ascii_of_nat 10) prefix = 0 ->
  (forall d, file_descendant node d ->
             PyStr.count (ascii_of_nat 10) (fn_name d) = 0) ->
  PyStr.count (ascii_of_nat 10) (_format_tree (Some node) prefix is_last)
  = shown_entries node.
Proof. intros Hp Hn. by apply format_node_lines. Qed.

Ltac walk_file_tree H :=
  let Hcs := fresh "Hcs" in
  let Hc := fresh "Hc" in
  let Hd := fresh "Hd" in
  inversion H as [| ? ? ? ? Hcs Hc Hd]; subst;
  [ reflexivity
  | simpl in Hcs;
    first
      [ discriminate Hcs
      | injection Hcs as <-; simpl in Hc;
        repeat (destruct Hc as [<- | Hc]; [walk_file_tree Hd |]);
        destruct Hc ] ].

Lemma format_tree_lines_witness :
  PyStr.count (ascii_of_nat 10) "" = 0
  /\ (forall d, file_descendant Sample.repo_tree d ->
                PyStr.count (ascii_of_nat 10) (fn_name d) = 0)
  /\ PyStr.count (ascii_of_nat 10)
       (_format_tree (Some Sample.repo_tree) "" true) = 5.
Proof.
  assert (H : forall d, file_descendant Sample.repo_tree d ->
                        PyStr.count (ascii_of_nat 10) (fn_name d) = 0).
  { intros d Hd. walk_file_tree Hd. }
  split; [reflexivity|]. split; [exact H|].
  exact (format_tree_lines Sample.repo_tree "" true eq_refl H).
Defined.

(** ** The usage section *)

Lemma append_empty_r (s : string) : s +:+ "" = s.
Proof.
  induction s as [|c s IH]; rewrite ?append_empty, ?append_String;
    [done | by rewrite IH].
Qed.

Lemma prefix_append (p s t : string) :
  String.prefix p s = true -> String.prefix p (s +:+ t) = true.
Proof.
  revert s; induction p as [|c p IH]; intros [|d s] H;
    rewrite ?append_String, ?append_empty; try done.
  - by destruct t.
  - simpl in *. destruct (Ascii.ascii_dec c d); [by apply IH | done].
Qed.

Lemma contains_unfold (needle hay : string) :
  PyStr.contains needle hay
  = String.prefix needle hay
    || match hay with
       | EmptyString => false
       | String _ hay' => PyStr.contains needle hay'
       end.
Proof. destruct hay; reflexivity. Qed.

Lemma contains_append (needle s t : string) :
  PyStr.contains needle s = true -> PyStr.contains needle (s +:+ t) = true.
Proof.
  induction s as [|c s IH].
  - rewrite append_empty, contains_unfold. intros H.
    destruct needle; [|done].
    rewrite contains_unfold. by destruct t.
  - rewrite append_String.
    rewrite (contains_unfold _ (String c s)),
      (contains_unfold _ (String c (s +:+ t))).
    intros [H | H]%orb_true_iff.
    + apply (prefix_append needle (String c s) t) in H.
      rewrite append_String in H. by rewrite H.
    + rewrite IH by done. apply orb_true_r.
Qed.

(** The usage section is its heading, the installation block when
    [requirements.txt] exists, the usage block of the first entry point
    that exists, and the rule.  The notice that no instructions are
    available is never part of it: the heading itself holds the word the
    notice is conditioned on. *)
Theorem usage_section_text (os : OsPath) (self : MarkdownGenerator)
    (local_path : string) :
  _generate_usage_section os self local_path
  = ((usage_heading
      +:+ (if os_path_exists os (os_path_join os local_path "requirements.txt")
           then installation_block (repo_url self) else ""))
     +:+ match List.find
                 (fun entry =>
                    os_path_exists os (os_path_join os local_path entry))
                 entry_points with
         | Some entry => usage_block entry
         | None => ""
         end)
    +:+ "---" +:+ PyStr.nl.
Proof.
  unfold _generate_usage_section.
  set (s1 := if os_path_exists os _ then usage_heading +:+ _ else usage_heading).
  set (s2 := match List.find _ entry_points with
             | Some entry => s1 +:+ usage_block entry
             | None => s1
             end).
  assert (H1 : s1 = usage_heading
                    +:+ (if os_path_exists os
                              (os_path_join os local_path "requirements.txt")
                         then installation_block (repo_url self) else "")).
  { unfold s1. destruct (os_path_exists os _); [done|].
    by rewrite append_empty_r. }
  assert (H2 : s2 = s1 +:+ match List.find
                                   (fun entry =>
                                      os_path_exists os
                                        (os_path_join os local_path entry))
                                   entry_points with
                           | Some entry => usage_block entry
                           | None => ""
                           end).
  { unfold s2. destruct (List.find _ entry_points); [done|].
    by rewrite append_empty_r. }
  assert (Hc : PyStr.contains "Installation" s2 = true).
  { rewrite H2, H1. do 2 apply contains_append. vm_compute. reflexivity. }
  rewrite Hc. simpl negb. cbv iota. cbn [andb]. by rewrite H2, H1.
Qed.

(** ** File selection *)

Section Selection.

Variable rglob : string -> list FoundPath.
Variable code_extensions : list string.

Lemma priority_scan_inv (P : string -> Prop) (files : list FoundPath)
    (acc : list string) :
  Forall P acc ->
  (forall file, In file files -> skipped file = false -> P (fp_str file)) ->
  Forall P (priority_scan files acc).
Proof.
  unfold priority_scan. revert acc.
  induction files as [|file files IH]; intros acc Hacc Hfiles; simpl; [done|].
  apply IH.
  - destruct (skipped file) eqn:Hs; simpl; [done|].
    apply Forall_app. split; [done|]. constructor; [|done].
    apply Hfiles; [by left | done].
  - intros f Hf. apply Hfiles. by right.
Qed.

Lemma extension_scan_inv (P : string -> Prop) max_files
    (files : list FoundPath) (acc : list string) :
  Forall P acc ->
  (forall file, In file files -> skipped file = false -> P (fp_str file)) ->
  Forall P (extension_scan max_files files acc).
Proof.
  revert acc.
  induction files as [|file files IH]; intros acc Hacc Hfiles; simpl; [done|].
  assert (Hrest : forall f, In f files -> skipped f = false -> P (fp_str f))
    by (intros f Hf; apply Hfiles; by right).
  destruct (bool_decide _); simpl; [by apply IH|].
  destruct (skipped file) eqn:Hs; simpl; [by apply IH|].
  assert (Forall P (acc ++ [fp_str file])).
  { apply Forall_app. split; [done|]. constructor; [|done].
    apply Hfiles; [by left | done]. }
  destruct (_ <=? _)%nat; [done | by apply IH].
Qed.

Lemma extension_scan_NoDup max_files (files : list FoundPath)
    (acc : list string) :
  NoDup acc -> NoDup (extension_scan max_files files acc).
Proof.
  revert acc.
  induction files as [|file files IH]; intros acc Hacc; simpl; [done|].
  destruct (bool_decide_reflect (fp_str file ∈ acc)) as [Hin|Hin]; simpl;
    [by apply IH|].
  destruct (skipped file); simpl; [by apply IH|].
  assert (NoDup (acc ++ [fp_str file])).
  { apply NoDup_app. split; [done|]. split; [|apply NoDup_singleton].
    intros x Hx Hx'. apply list_elem_of_singleton in Hx' as ->. done. }
  destruct (_ <=? _)%nat; [done | by apply IH].
Qed.

Lemma found_priority_files_selectable :
  Forall (selectable rglob code_extensions) (found_priority_files rglob).
Proof.
  unfold found_priority_files.
  enough (H : forall patterns acc,
             (forall pattern, In pattern patterns ->
                              In pattern priority_patterns) ->
             Forall (selectable rglob code_extensions) acc ->
             Forall (selectable rglob code_extensions)
               (fold_left (fun priority_files pattern =>
                             priority_scan (rglob pattern) priority_files)
                          patterns acc))
    by (apply H; [done | constructor]).
  induction patterns as [|pattern patterns IH]; intros acc Hsub Hacc; simpl;
    [done|].
  apply IH; [intros q Hq; apply Hsub; by right|].
  apply priority_scan_inv; [done|].
  intros file Hfile Hs. exists pattern, file.
  split; [left; apply Hsub; by left | done].
Qed.

Lemma extensions_scan_selectable max_files (exts : list string)
    (acc : list string) :
  (forall ext, In ext exts -> In ext code_extensions) ->
  Forall (selectable rglob code_extensions) acc ->
  Forall (selectable rglob code_extensions)
         (extensions_scan rglob max_files exts acc).
Proof.
  revert acc. induction exts as [|ext exts IH]; intros acc Hsub Hacc; simpl;
    [done|].
  assert (Forall (selectable rglob code_extensions)
            (extension_scan max_files (rglob ("*" +:+ ext)) acc)).
  { apply extension_scan_inv; [done|].
    intros file Hfile Hs. exists ("*" +:+ ext), file.
    split; [|done]. right. exists ext. split; [apply Hsub; by left | done]. }
  destruct (_ <=? _)%nat; [done|].
  apply IH; [intros e He; apply Hsub; by right | done].
Qed.

Lemma extensions_scan_NoDup max_files (exts : list string)
    (acc : list string) :
  NoDup acc -> NoDup (extensions_scan rglob max_files exts acc).
Proof.
  revert acc. induction exts as [|ext exts IH]; intros acc Hacc; simpl; [done|].
  pose proof (extension_scan_NoDup max_files (rglob ("*" +:+ ext)) acc Hacc).
  destruct (_ <=? _)%nat; [done | by apply IH].
Qed.

End Selection.

Lemma get_code_files_selectable (rglob : string -> list FoundPath)
    (code_extensions : list string) (max_files : nat) :
  Forall (selectable rglob code_extensions)
         (get_code_files rglob code_extensions max_files).
Proof.
  unfold get_code_files. apply Forall_take. simpl.
  assert (Forall (selectable rglob code_extensions)
            (take 10 (found_priority_files rglob)))
    by apply Forall_take, found_priority_files_selectable.
  destruct (_ <? _)%nat; [|done].
  by apply extensions_scan_selectable.
Qed.


(** A file is listed once: when the first ten priority files are distinct
    paths, so are the selected files, although a priority file is found
    again under its extension. *)
Theorem get_code_files_distinct (rglob : string -> list FoundPath)
    (code_extensions : list string) (max_files : nat) :
  NoDup (take 10 (found_priority_files rglob)) ->
  NoDup (get_code_files rglob code_extensions max_files).
Proof.
  intros H. unfold get_code_files. simpl.
  refine (sublist_NoDup _ _ _ (sublist_take _ _)).
  destruct (_ <? _)%nat; [|done]. by apply extensions_scan_NoDup.
Qed.

Lemma get_code_files_distinct_witness :
  NoDup (take 10 (found_priority_files Sample.repo_rglob))
  /\ get_code_files Sample.repo_rglob [".py"; ".jac"; ".js"; ".ts"] 50
     = ["repo/main.py"; "repo/pkg/__init__.py"; "repo/pkg/core.py";
        "repo/web/app.js"]
  /\ NoDup (get_code_files Sample.repo_rglob [".py"; ".jac"; ".js"; ".ts"] 50).
Proof.
  assert (H : NoDup (take 10 (found_priority_files Sample.repo_rglob))).
  { apply (bool_decide_unpack _). vm_compute. exact I. }
  split; [exact H|]. split; [vm_compute; reflexivity|].
  exact (get_code_files_distinct _ _ _ H).
Defined.

(** When every path the file system yields has a part among the skipped
    names, nothing is selected: so it is for a repository that itself lies
    in or under a directory named [build], [dist], [env], [venv], [test] or
    [tests], since the parts of the root are parts of every path. *)
Theorem get_code_files_all_skipped (rglob : string -> list FoundPath)
    (code_extensions : list string) (max_files : nat) :
  (forall pattern file, In file (rglob pattern) -> skipped file = true) ->
  get_code_files rglob code_extensions max_files = [].
Proof.
  intros Hall.
  pose proof (get_code_files_selectable rglob code_extensions max_files)
    as Hsel.
  destruct (get_code_files rglob code_extensions max_files) as [|p l]; [done|].
  inversion Hsel as [|? ? (pattern & file & _ & Hfile & _ & Hs) _]; subst.
  rewrite (Hall pattern file Hfile) in Hs. done.
Qed.

Lemma get_code_files_all_skipped_witness :
  (forall pattern file,
     In file (Sample.build_rglob pattern) -> skipped file = true)
  /\ get_code_files Sample.build_rglob [".py"; ".jac"; ".js"; ".ts"] 50 = [].
Proof.
  assert (H : forall pattern file,
             In file (Sample.build_rglob pattern) -> skipped file = true).
  { intros pattern file Hf. unfold Sample.build_rglob in Hf.
    apply in_map_iff in Hf as (f & <- & _). unfold skipped.
    apply existsb_exists. exists "build". split.
    - unfold skip_dirs. simpl. tauto.
    - apply bool_decide_eq_true_2. simpl. apply elem_of_cons. by left. }
  split; [exact H|].
  exact (get_code_files_all_skipped _ _ _ H).
Defined.

(** ** Generated trees *)

Section BuildItemsInv.

Variable recurse : string -> outcome (list FileNode).
Variable P : FileNode -> Prop.

Lemma build_items_inv (items : list DirItem) :
  (forall item grandchildren,
     In item items ->
     ~ (item_is_dir item = true /\ In (item_name item) IGNORE_DIRS) ->
     (PyStr.startswith "." (item_name item) = true ->
      In (item_name item) kept_hidden_names) ->
     (if item_is_dir item
      then recurse (item_path item) = Return grandchildren
      else grandchildren = []) ->
     P (child_node item grandchildren)) ->
  forall children result,
    Forall P children ->
    build_items recurse items children = Return result ->
    Forall P result.
Proof.
  induction items as [|item rest IH]; intros Hstep children result Hc; simpl.
  - by intros [= <-].
  - assert (Hrest : forall item' g,
               In item' rest ->
               ~ (item_is_dir item' = true /\ In (item_name item') IGNORE_DIRS) ->
               (PyStr.startswith "." (item_name item') = true ->
                In (item_name item') kept_hidden_names) ->
               (if item_is_dir item'
                then recurse (item_path item') = Return g else g = []) ->
               P (child_node item' g))
      by (intros i g Hi; apply Hstep; by right).
    destruct (item_is_dir item && bool_decide (item_name item ∈ IGNORE_DIRS))
      eqn:Hign; [by apply IH|].
    destruct (PyStr.startswith "." (item_name item)
              && negb (bool_decide (item_name item ∈ kept_hidden_names)))
      eqn:Hhid; [by apply IH|].
    assert (Hi : ~ (item_is_dir item = true
                    /\ In (item_name item) IGNORE_DIRS)).
    { intros [Hd Hin]. rewrite Hd in Hign. simpl in Hign.
      apply bool_decide_eq_false in Hign. by apply Hign, list_elem_of_In. }
    assert (Hh : PyStr.startswith "." (item_name item) = true ->
                 In (item_name item) kept_hidden_names).
    { intros Hs. rewrite Hs in Hhid. simpl in Hhid.
      apply negb_false_iff, bool_decide_eq_true in Hhid.
      by apply list_elem_of_In. }
    destruct (item_is_dir item) eqn:Hd.
    + destruct (recurse (item_path item)) as [g|msg] eqn:Hr.
      * apply IH; [done|]. apply Forall_app. split; [done|].
        constructor; [|done].
        apply Hstep; [by left | by rewrite Hd | done | by rewrite Hd].
      * destruct (String.eqb msg "PermissionError"); [|done].
        by intros [= <-].
    + apply IH; [done|]. apply Forall_app. split; [done|].
      constructor; [|done].
      apply Hstep; [by left | by rewrite Hd | done | by rewrite Hd].
Qed.

End BuildItemsInv.

Lemma child_node_listed_ok item grandchildren :
  ~ (item_is_dir item = true /\ In (item_name item) IGNORE_DIRS) ->
  (PyStr.startswith "." (item_name item) = true ->
   In (item_name item) kept_hidden_names) ->
  listed_ok (child_node item grandchildren).
Proof.
  intros Hi Hh. unfold listed_ok, child_node; simpl.
  destruct (item_is_dir item); repeat split; auto; try done;
    try (intros _ Hin; by apply Hi).
Qed.

Lemma tree_height_children node cs k :
  fn_children node = Some cs ->
  Forall (fun c => tree_height c < k) cs ->
  tree_height node <= k.
Proof.
  intros Hcs H. destruct node as [name ty path ext oc]; simpl in *.
  subst oc. destruct cs as [|c cs]; [lia|].
  assert (list_max (map tree_height (c :: cs)) < k); [|simpl in *; lia].
  apply list_max_lt; [done|].
  apply List.Forall_map. rewrite List.Forall_forall.
  rewrite List.Forall_forall in H. done.
Qed.

Lemma build_tree_inv fs depth_left :
  forall path children,
    _build_tree fs depth_left path = Return children ->
    Forall (fun c => tree_height c < depth_left
                     /\ forall n, file_descendant c n -> listed_ok n)
           children.
Proof.
  induction depth_left as [|k IH]; intros path children; simpl.
  - by intros [= <-].
  - destruct (fs_iterdir fs path) as [listing|msg].
    + apply build_items_inv; [|constructor].
      intros item g _ Hi Hh Hg.
      pose proof (child_node_listed_ok item g Hi Hh) as Hok.
      destruct (item_is_dir item) eqn:Hd.
      * specialize (IH _ _ Hg). split.
        -- apply Nat.lt_succ_r.
           apply (tree_height_children _ g); [by unfold child_node; rewrite Hd|].
           eapply Forall_impl; [exact IH|]. by intros c [H _].
        -- intros n Hn.
           inversion Hn as [|? cs c ? Hcs Hc Hd']; subst.
           ++ exact Hok.
           ++ unfold child_node in Hcs; simpl in Hcs. rewrite Hd in Hcs.
              injection Hcs as <-.
              rewrite List.Forall_forall in IH.
              by apply (IH c Hc).
      * subst g. split.
        -- unfold child_node; simpl. rewrite Hd. simpl. lia.
        -- intros n Hn.
           inversion Hn as [|? cs c ? Hcs Hc Hd']; subst.
           ++ exact Hok.
           ++ unfold child_node in Hcs; simpl in Hcs. by rewrite Hd in Hcs.
    + destruct (String.eqb msg "PermissionError"); [|done].
      by intros [= <-].
Qed.



Lemma build_items_returns recurse (items : list DirItem) :
  (forall p msg, recurse p = Raise msg -> msg = "PermissionError") ->
  forall children, exists r, build_items recurse items children = Return r.
Proof.
  intros Hrec. induction items as [|item rest IH]; intros children; simpl;
    [eauto|].
  destruct (_ && _); [apply IH|].
  destruct (_ && _); [apply IH|].
  destruct (item_is_dir item); [|apply IH].
  destruct (recurse (item_path item)) as [g|msg] eqn:Hr; [apply IH|].
  rewrite (Hrec _ _ Hr). simpl. eauto.
Qed.

Lemma build_tree_no_permission_error fs depth_left path msg :
  _build_tree fs depth_left path = Raise msg -> msg <> "PermissionError".
Proof.
  revert path. induction depth_left as [|k IH]; intros path; simpl; [done|].
  destruct (fs_iterdir fs path) as [listing|m].
  - generalize (@nil FileNode).
    induction (sorted_items listing) as [|item rest IHl]; intros acc; simpl;
      [done|].
    destruct (_ && _); [apply IHl|].
    destruct (_ && _); [apply IHl|].
    destruct (item_is_dir item); [|apply IHl].
    destruct (_build_tree fs k (item_path item)) as [g|m] eqn:Hr; [apply IHl|].
    destruct (String.eqb_spec m "PermissionError"); [done|].
    by intros [= <-].
  - destruct (String.eqb_spec m "PermissionError"); [done|].
    by intros [= <-].
Qed.

Lemma build_tree_returns fs :
  (forall p msg, fs_iterdir fs p = Raise msg -> msg = "PermissionError") ->
  forall depth_left path, exists r, _build_tree fs depth_left path = Return r.
Proof.
  intros Hfs. induction depth_left as [|k IH]; intros path; simpl; [eauto|].
  destruct (fs_iterdir fs path) as [listing|msg] eqn:Hl.
  - apply build_items_returns. intros p msg Hp.
    destruct (IH p) as [r Hr]. congruence.
  - rewrite (Hfs _ _ Hl). simpl. eauto.
Qed.



(** For a root that does not exist [generate_tree] returns the empty
    dictionary; the tree is then rendered as nothing, and asking it for the
    important files raises [KeyError]. *)
Theorem missing_root_tree (fs : FileSystem) (root_path : string)
    (max_depth : nat) :
  fs_exists fs root_path = false ->
  exists tree,
    generate_tree fs root_path max_depth = Return tree
    /\ _format_tree tree "" true = ""
    /\ get_important_files tree = Raise "KeyError".
Proof.
  intros H. exists None. unfold generate_tree. rewrite H. done.
Qed.

Lemma missing_root_tree_witness :
  fs_exists Sample.checkout "/w/none" = false
  /\ generate_tree Sample.checkout "/w/none" 5 = Return None.
Proof.
  assert (H : fs_exists Sample.checkout "/w/none" = false) by reflexivity.
  split; [exact H|].
  destruct (missing_root_tree Sample.checkout "/w/none" 5 H)
    as (tree & Ht & _ & Hk).
  rewrite Ht. f_equal. by destruct tree.
Defined.

(** ** Order of the children *)

Lemma insert_item_dirs_first x l :
  items_dirs_first l -> items_dirs_first (insert_item x l).
Proof.
  intros (ds & fs & -> & Hds & Hfs).
  induction Hds as [|d ds Hd Hds IH]; simpl.
  - destruct (item_is_dir x) eqn:Hx.
    + assert (H : items_dirs_first (x :: fs))
        by (exists [x], fs; repeat split; [by constructor | done]).
      destruct fs as [|y fs]; simpl; [done|].
      inversion Hfs as [|? ? Hy Hfs']; subst.
      unfold item_le. rewrite Hx, Hy. simpl. done.
    + enough (H : Forall (fun i => item_is_dir i = false) (insert_item x fs))
        by (exists [], (insert_item x fs); by repeat split).
      clear -Hx Hfs. induction Hfs as [|y fs Hy Hfs IH]; simpl.
      * by repeat constructor.
      * destruct (item_le x y); repeat constructor; done.
  - destruct (item_le x d) eqn:Hle.
    + unfold item_le in Hle. rewrite Hd in Hle. simpl in Hle.
      assert (Hx : item_is_dir x = true).
      { destruct (item_is_dir x); [done|]. simpl in Hle. done. }
      exists (x :: d :: ds), fs. repeat split; [|done].
      by repeat constructor.
    + destruct IH as (ds' & fs' & Heq & Hds' & Hfs').
      exists (d :: ds'), fs'. rewrite Heq. repeat split; [|done].
      by constructor.
Qed.

Lemma sorted_items_dirs_first l : items_dirs_first (sorted_items l).
Proof.
  induction l as [|x l IH]; simpl.
  - exists [], []. by repeat split.
  - by apply insert_item_dirs_first.
Qed.

Lemma items_dirs_first_tail x l :
  items_dirs_first (x :: l) -> items_dirs_first l.
Proof.
  intros ([|d ds] & fs & Heq & Hds & Hfs); simpl in Heq.
  - subst fs. inversion Hfs; subst. exists [], l. by repeat split.
  - injection Heq as -> ->. inversion Hds; subst. by exists ds, fs.
Qed.

Lemma items_dirs_first_file x l :
  items_dirs_first (x :: l) -> item_is_dir x = false ->
  Forall (fun i => item_is_dir i = false) l.
Proof.
  intros ([|d ds] & fs & Heq & Hds & Hfs) Hx; simpl in Heq.
  - subst fs. by inversion Hfs.
  - injection Heq as -> ->. inversion Hds; subst. congruence.
Qed.

Lemma build_items_dirs_first recurse (items : list DirItem) :
  forall children result,
    (Forall (fun c => fn_type c = "directory") children
     /\ items_dirs_first items)
    \/ (dirs_first children
        /\ Forall (fun i => item_is_dir i = false) items) ->
    build_items recurse items children = Return result ->
    dirs_first result.
Proof.
  induction items as [|item rest IH]; intros children result Hinv; simpl.
  - intros [= <-]. destruct Hinv as [[H _] | [H _]]; [|done].
    exists children, []. rewrite app_nil_r. by repeat split.
  - assert (Hskip : (Forall (fun c => fn_type c = "directory") children
                     /\ items_dirs_first rest)
                    \/ (dirs_first children
                        /\ Forall (fun i => item_is_dir i = false) rest)).
    { destruct Hinv as [[H1 H2] | [H1 H2]].
      - left. split; [done|]. by eapply items_dirs_first_tail.
      - right. split; [done|]. by inversion H2. }
    destruct (_ && _); [by apply IH|].
    destruct (_ && _); [by apply IH|].
    destruct (item_is_dir item) eqn:Hd.
    + destruct Hinv as [[H1 H2] | [H1 H2]];
        [|inversion H2; subst; congruence].
      destruct (recurse (item_path item)) as [g|msg].
      * apply IH. left. split; [|by eapply items_dirs_first_tail].
        apply Forall_app. split; [done|]. constructor; [|done].
        unfold child_node; simpl. by rewrite Hd.
      * destruct (String.eqb msg "PermissionError"); [|done].
        intros [= <-]. exists children, []. rewrite app_nil_r.
        by repeat split.
    + apply IH. right.
      assert (Hfile : fn_type (child_node item []) = "file")
        by (unfold child_node; simpl; by rewrite Hd).
      destruct Hinv as [[H1 H2] | [H1 H2]].
      * split; [|by eapply items_dirs_first_file].
        exists children, [child_node item []]. repeat split; [done|].
        by repeat constructor.
      * split; [|by inversion H2].
        destruct H1 as (ds & fs & -> & Hds & Hfs).
        exists ds, (fs ++ [child_node item []]).
        rewrite app_assoc. repeat split; [done|].
        apply Forall_app. split; [done | by repeat constructor].
Qed.

Lemma build_tree_order fs depth_left :
  forall path children,
    _build_tree fs depth_left path = Return children ->
    dirs_first children
    /\ Forall (fun c => forall n cs, file_descendant c n ->
                                     fn_children n = Some cs -> dirs_first cs)
              children.
Proof.
  induction depth_left as [|k IH]; intros path children; simpl.
  - intros [= <-]. split; [|done]. exists [], []. by repeat split.
  - destruct (fs_iterdir fs path) as [listing|msg].
    + intros Hb. split.
      * eapply build_items_dirs_first; [|exact Hb].
        left. split; [done | apply sorted_items_dirs_first].
      * revert Hb. apply build_items_inv; [|constructor].
        intros item g _ _ _ Hg n cs Hn Hcs.
        destruct (item_is_dir item) eqn:Hd.
        -- destruct (IH _ _ Hg) as [Hg1 Hg2].
           inversion Hn as [|? cs' c ? Hcs' Hc Hd']; subst.
           ++ unfold child_node in Hcs; simpl in Hcs. rewrite Hd in Hcs.
              by injection Hcs as <-.
           ++ unfold child_node in Hcs'; simpl in Hcs'. rewrite Hd in Hcs'.
              injection Hcs' as <-.
              rewrite List.Forall_forall in Hg2.
              by apply (Hg2 c Hc n cs).
        -- inversion Hn as [|? cs' c ? Hcs' Hc Hd']; subst.
           ++ unfold child_node in Hcs; simpl in Hcs. by rewrite Hd in Hcs.
           ++ unfold child_node in Hcs'; simpl in Hcs'. by rewrite Hd in Hcs'.
    + destruct (String.eqb msg "PermissionError"); [|done].
      intros [= <-]. split; [|done]. exists [], []. by repeat split.
Qed.

(** In a generated tree every child list has its directories before its
    files, as the sort key [(not is_dir, name)] puts them. *)
Theorem generate_tree_dirs_first (fs : FileSystem) (root_path : string)
    (max_depth : nat) (tree n : FileNode) (cs : list FileNode) :
  generate_tree fs root_path max_depth = Return (Some tree) ->
  file_descendant tree n ->
  fn_children n = Some cs ->
  dirs_first cs.
Proof.
  unfold generate_tree.
  destruct (fs_exists fs root_path); simpl; [|done].
  destruct (_build_tree fs max_depth (fs_str fs root_path))
    as [children|] eqn:Hb; [|done].
  intros [= <-] Hn Hcs. destruct (build_tree_order _ _ _ _ Hb) as [H1 H2].
  inversion Hn as [|? cs' c ? Hcs' Hc Hd']; subst.
  - simpl in Hcs. by injection Hcs as <-.
  - simpl in Hcs'. injection Hcs' as <-.
    rewrite List.Forall_forall in H2. by apply (H2 c Hc n cs).
Qed.

Lemma generate_tree_dirs_first_witness :
  generate_tree Sample.checkout "/w/repo" 2 = Return (Some Sample.checkout_tree)
  /\ file_descendant Sample.checkout_tree Sample.checkout_tree
  /\ map fn_name (default [] (fn_children Sample.checkout_tree))
     = ["locked"; "src"; ".gitignore"; "README.md"; "setup.py"]
  /\ dirs_first (default [] (fn_children Sample.checkout_tree)).
Proof.
  assert (H : generate_tree Sample.checkout "/w/repo" 2
              = Return (Some Sample.checkout_tree))
    by (vm_compute; reflexivity).
  split; [exact H|]. split; [constructor|]. split; [reflexivity|].
  exact (generate_tree_dirs_first _ _ _ _ _ _ H
           (file_descendant_self _) eq_refl).
Defined.

(** ** The clone directory *)

Lemma append_assoc (a b c : string) : (a +:+ b) +:+ c = a +:+ (b +:+ c).
Proof.
  induction a as [|x a IH]; rewrite ?append_empty, ?append_String;
    [done | by rewrite IH].
Qed.

Lemma rstrip_char_append c (a b : string) :
  rstrip_char c b <> "" -> rstrip_char c (a +:+ b) = a +:+ rstrip_char c b.
Proof.
  intros Hb. induction a as [|x a IH]; rewrite ?append_empty, ?append_String;
    [done|].
  simpl. rewrite IH.
  destruct (a +:+ rstrip_char c b) eqn:E; [|done].
  destruct a; [|rewrite append_String in E; done].
  rewrite append_empty in E. done.
Qed.

Lemma split_append_sep sep (a b : string) :
  exists piece pieces,
    PyStr.split sep (a +:+ String sep b)
    = (piece :: pieces) ++ PyStr.split sep b.
Proof.
  induction a as [|x a (piece & pieces & IH)];
    rewrite ?append_empty, ?append_String; simpl.
  - rewrite Ascii.eqb_refl. by exists "", [].
  - rewrite IH. destruct (Ascii.eqb x sep).
    + by exists "", (piece :: pieces).
    + by exists (String x piece), pieces.
Qed.

Lemma split_without_sep sep (b : string) :
  PyStr.count sep b = 0 -> PyStr.split sep b = [b].
Proof.
  induction b as [|x b IH]; simpl; [done|].
  destruct (Ascii.eqb x sep); [done|]. intros H. by rewrite IH.
Qed.

Lemma substring_prefix (a b : string) :
  String.substring 0 (String.length a) (a +:+ b) = a.
Proof.
  induction a as [|x a IH]; rewrite ?append_empty, ?append_String; simpl.
  - by destruct b.
  - by rewrite IH.
Qed.

Lemma substring_suffix (a b : string) :
  String.substring (String.length a) (String.length b) (a +:+ b) = b.
Proof.
  induction a as [|x a IH]; rewrite ?append_empty, ?append_String; simpl.
  - pose proof (substring_prefix b "") as H. by rewrite append_empty_r in H.
  - exact IH.
Qed.

Lemma last_split_count sep (s : string) :
  PyStr.count sep (List.last (PyStr.split sep s) "") = 0.
Proof.
  destruct (split_pieces sep s) as [Hne Hall].
  destruct (exists_last Hne) as (l & x & E). rewrite E in Hall |- *.
  rewrite last_last. apply Forall_app in Hall as [_ Hx]. by inversion Hx.
Qed.

Lemma repo_name_of_no_slash (repo_url : string) :
  PyStr.count "/" (repo_name_of repo_url) = 0.
Proof.
  unfold repo_name_of.
  pose proof (last_split_count "/" (rstrip_char "/" repo_url)) as H.
  destruct (PyStr.endswith _ _); [|done].
  pose proof (count_substring "/" 0
                (String.length
                   (List.last (PyStr.split "/" (rstrip_char "/" repo_url)) "")
                 - 4)
                (List.last (PyStr.split "/" (rstrip_char "/" repo_url)) "")).
  lia.
Qed.



(** The name is read back from a URL of the usual form: for a name without
    a slash, [prefix/name.git] gives [name]. *)
Theorem repo_name_of_git_url (prefix name : string) :
  PyStr.count "/" name = 0 ->
  repo_name_of (prefix +:+ "/" +:+ name +:+ ".git") = name.
Proof.
  intros Hname. unfold repo_name_of.
  assert (Hr : rstrip_char "/" (prefix +:+ "/" +:+ name +:+ ".git")
               = prefix +:+ "/" +:+ name +:+ ".git").
  { rewrite <- !append_assoc.
    rewrite (rstrip_char_append "/" ((prefix +:+ "/") +:+ name) ".git");
      [reflexivity | discriminate]. }
  rewrite Hr.
  destruct (split_append_sep "/" prefix (name +:+ ".git"))
    as (piece & pieces & Hs).
  change (prefix +:+ "/" +:+ name +:+ ".git")
    with (prefix +:+ String "/" (name +:+ ".git")).
  rewrite Hs.
  rewrite (split_without_sep "/" (name +:+ ".git"))
    by (rewrite count_append, Hname; reflexivity).
  rewrite last_last.
  pose proof (substring_suffix name ".git") as Hsuf.
  pose proof (substring_prefix name ".git") as Hpre.
  change (String.length ".git") with 4 in Hsuf.
  assert (He : PyStr.endswith ".git" (name +:+ ".git") = true).
  { unfold PyStr.endswith. rewrite length_append.
    change (String.length ".git") with 4.
    replace (String.length name + 4 - 4) with (String.length name) by lia.
    rewrite Hsuf. apply andb_true_iff.
    split; [apply Nat.leb_le; lia | reflexivity]. }
  rewrite He, length_append. change (String.length ".git") with 4.
  replace (String.length name + 4 - 4) with (String.length name) by lia.
  exact Hpre.
Qed.

Lemma repo_name_of_git_url_witness :
  PyStr.count "/" "Hello-World" = 0
  /\ repo_name_of ("https://github.com/octocat" +:+ "/" +:+ "Hello-World"
                   +:+ ".git") = "Hello-World".
Proof.
  split; [reflexivity|]. apply repo_name_of_git_url. reflexivity.
Defined.
